(** * img4andnano: the image generation service

    A shallow embedding of [src/services/geminiService.ts] and of the earlier
    revision of the same service kept in [src/unnamed/part_001], with the
    properties of [generateImage] that the specification states.

    Conventions of the embedding.
    - A JavaScript string is a [string]: each character is one code unit in
      the range U+0000..U+00FF.  [trim], [toLowerCase] and [includes] are the
      String.prototype methods restricted to that range.
    - An optional parameter or property ([x?: T]) is an [option].
    - The vendor SDK ("@google/genai") is not part of the repository.  Its
      request and response records carry the fields the service reads or
      writes, at the types the service's own signature gives them, and its
      two operations are a parameter: a [Backend] over an arbitrary state
      of the remote service.
    - [generateImage] is an [Async] computation: it threads the state of the
      remote service, may throw, and records what it did (backend calls with
      their outcome, console output) as a list of events. *)

From Stdlib Require Import String Ascii List Bool Arith.
Import ListNotations.
Open Scope string_scope.
Open Scope list_scope.

Set Implicit Arguments.

(** ** JavaScript values and string methods *)

Module JS.

(** ECMAScript WhiteSpace and LineTerminator code points below U+0100:
    TAB, LF, VT, FF, CR, SP and NBSP. *)
Definition isWhiteSpace (c : ascii) : bool :=
  let n := nat_of_ascii c in
  (((9 <=? n) && (n <=? 13)) || (n =? 32) || (n =? 160))%nat.

Fixpoint trimStart (s : string) : string :=
  match s with
  | EmptyString => EmptyString
  | String c rest => if isWhiteSpace c then trimStart rest else s
  end.

Fixpoint trimEnd (s : string) : string :=
  match s with
  | EmptyString => EmptyString
  | String c rest =>
      match trimEnd rest with
      | EmptyString => if isWhiteSpace c then EmptyString else String c EmptyString
      | kept => String c kept
      end
  end.

(** [s.trim()] *)
Definition trim (s : string) : string := trimEnd (trimStart s).

(** Lower-case mapping of one code unit below U+0100: A..Z, and the
    Latin-1 capitals U+00C0..U+00DE except the multiplication sign. *)
Definition lowerChar (c : ascii) : ascii :=
  let n := nat_of_ascii c in
  if (((65 <=? n) && (n <=? 90))
      || ((192 <=? n) && (n <=? 222) && negb (n =? 215)))%nat
  then ascii_of_nat (n + 32)
  else c.

(** [s.toLowerCase()] *)
Fixpoint toLowerCase (s : string) : string :=
  match s with
  | EmptyString => EmptyString
  | String c rest => String (lowerChar c) (toLowerCase rest)
  end.

Fixpoint startsWith (s search : string) : bool :=
  match search, s with
  | EmptyString, _ => true
  | String _ _, EmptyString => false
  | String a search', String b s' => Ascii.eqb a b && startsWith s' search'
  end.

(** [s.includes(search)] *)
Fixpoint includes (s search : string) : bool :=
  startsWith s search
  || match s with
     | EmptyString => false
     | String _ rest => includes rest search
     end.

(** Truthiness of a string: every string but the empty one. *)
Definition truthy (s : string) : bool :=
  match s with
  | EmptyString => false
  | String _ _ => true
  end.

(** Truthiness of a value of type [string | undefined]. *)
Definition truthy_opt (v : option string) : bool :=
  match v with
  | Some s => truthy s
  | None => false
  end.

(** [a || b] on values of type [string | undefined]. *)
Definition or_else (a b : option string) : option string :=
  if truthy_opt a then a else b.

(** [o?.f]: optional chaining. *)
Definition chain {A B : Type} (o : option A) (f : A -> option B) : option B :=
  match o with
  | Some a => f a
  | None => None
  end.

(** [o ?? d]: nullish coalescing. *)
Definition nullish {A : Type} (o : option A) (d : A) : A :=
  match o with
  | Some a => a
  | None => d
  end.

(** [xs.push(x)] *)
Definition push {A : Type} (xs : list A) (x : A) : list A := xs ++ [x].

(** A thrown value: an [Error] object with its message, or anything that
    is not an instance of [Error]. *)
Inductive Thrown : Type :=
| Error (message : string)
| NonError (value : string).

(** How a call ends: it returns a value or throws. *)
Inductive Completion (A : Type) : Type :=
| Returns (value : A)
| Throws (thrown : Thrown).

Arguments Returns {A} value.
Arguments Throws {A} thrown.

End JS.

Export JS.

Declare Scope js_scope.
Delimit Scope js_scope with js.
Notation "o ?. f" := (chain o f) (at level 45, left associativity) : js_scope.
Notation "o ?? d" := (nullish o d) (at level 46, left associativity) : js_scope.

(** ** The data of the service and of the vendor SDK *)

(** [interface ImageInput], lines 3-6. *)
Module ImageInput.
Record t : Type := { data : string; mimeType : string }.
End ImageInput.

(** The SDK, as the service uses it. *)

Module SDK.

(** The client handle: [new GoogleGenAI({ apiKey })]. *)
Record GoogleGenAI : Type := { apiKey : string }.

(** The argument of [ai.models.generateImages]. *)
Record GenerateImagesConfig : Type := {
  numberOfImages : nat;
  outputMimeType : string;
  aspectRatio : string
}.

Record GenerateImagesParameters : Type := {
  images_model : string;
  images_prompt : string;
  images_config : GenerateImagesConfig
}.

(** The part of its response that the service reads:
    [response.generatedImages[0].image.imageBytes]. *)
Record Image : Type := { imageBytes : string }.
Record GeneratedImage : Type := { image : Image }.
Record GenerateImagesResponse : Type := {
  generatedImages : option (list GeneratedImage)
}.

(** [{ data, mimeType }], the value of an [inlineData] property. *)
Record Blob : Type := { data : string; mimeType : string }.

(** A part of a request:
    [{ text: string } | { inlineData: { data: string; mimeType: string } }]. *)
Inductive RequestPart : Type :=
| TextPart (text : string)
| InlineDataPart (inlineData : Blob).

(** [enum Modality]; the service names [IMAGE] and [TEXT]. *)
Inductive Modality : Type := IMAGE | TEXT | AUDIO.

Record RequestContents : Type := { request_parts : list RequestPart }.
Record GenerateContentConfig : Type := { responseModalities : list Modality }.

(** The argument of [ai.models.generateContent]. *)
Record GenerateContentParameters : Type := {
  content_model : string;
  contents : RequestContents;
  content_config : GenerateContentConfig
}.

(** The part of its response that the service reads:
    [response.candidates?.[0]?.content?.parts], and [inlineData] of a part. *)
Record Part : Type := { text : option string; inlineData : option Blob }.
Record Content : Type := { parts : option (list Part) }.
Record Candidate : Type := { content : option Content }.
Record GenerateContentResponse : Type := {
  candidates : option (list Candidate)
}.

(** The two operations of [ai.models] that the service calls.  Each one
    depends on the client handle, the request and the state of the remote
    service, and ends by returning a response or by throwing. *)
Record Backend (World : Type) : Type := {
  generateImages :
    GoogleGenAI -> GenerateImagesParameters -> World ->
    Completion GenerateImagesResponse * World;
  generateContent :
    GoogleGenAI -> GenerateContentParameters -> World ->
    Completion GenerateContentResponse * World
}.

End SDK.

Export SDK.

(** [process.env], as far as the service reads it. *)
Record ProcessEnv : Type := { API_KEY : option string }.

(** ** Asynchronous computations *)

(** What one invocation does besides settling its promise. *)
Inductive Event : Type :=
| GenerateImages (ai : GoogleGenAI) (params : GenerateImagesParameters)
    (outcome : Completion GenerateImagesResponse)
| GenerateContent (ai : GoogleGenAI) (params : GenerateContentParameters)
    (outcome : Completion GenerateContentResponse)
| ConsoleError (label : string) (error : Thrown).

Definition isBackendCall (e : Event) : bool :=
  match e with
  | GenerateImages _ _ _ | GenerateContent _ _ _ => true
  | ConsoleError _ _ => false
  end.

(** The backend operations that an invocation invoked, in order. *)
Definition backendCalls (es : list Event) : list Event := filter isBackendCall es.

(** What the backend call recorded by an event threw, if it is a backend
    call and it threw. *)
Definition backendThrew (e : Event) : option Thrown :=
  match e with
  | GenerateImages _ _ (Throws t) | GenerateContent _ _ (Throws t) => Some t
  | _ => None
  end.

Module Async.

Section Monad.

Context {World : Type}.

(** The result of running a computation: how it ended, the state of the
    remote service afterwards, and the events it emitted. *)
Record Run (A : Type) : Type := {
  completion : Completion A;
  world : World;
  events : list Event
}.

Definition t (A : Type) : Type := World -> Run A.

Definition ret {A : Type} (a : A) : t A :=
  fun w => {| completion := Returns a; world := w; events := [] |}.

Definition throw {A : Type} (e : Thrown) : t A :=
  fun w => {| completion := Throws e; world := w; events := [] |}.

(** A synchronous call that returns or throws. *)
Definition lift {A : Type} (c : Completion A) : t A :=
  fun w => {| completion := c; world := w; events := [] |}.

Definition bind {A B : Type} (m : t A) (k : A -> t B) : t B :=
  fun w =>
    let r := m w in
    match completion r with
    | Returns a =>
        let r' := k a (world r) in
        {| completion := completion r';
           world := world r';
           events := events r ++ events r' |}
    | Throws e =>
        {| completion := Throws e; world := world r; events := events r |}
    end.

(** [try { body } catch (error) { handler }] *)
Definition try_catch {A : Type} (body : t A) (handler : Thrown -> t A) : t A :=
  fun w =>
    let r := body w in
    match completion r with
    | Returns a => r
    | Throws e =>
        let r' := handler e (world r) in
        {| completion := completion r';
           world := world r';
           events := events r ++ events r' |}
    end.

(** [console.error(label, error)] *)
Definition console_error (label : string) (error : Thrown) : t unit :=
  fun w =>
    {| completion := Returns tt; world := w;
       events := [ConsoleError label error] |}.

Variable sdk : Backend World.

(** [await ai.models.generateImages(params)] *)
Definition await_generateImages (ai : GoogleGenAI)
    (params : GenerateImagesParameters) : t GenerateImagesResponse :=
  fun w =>
    let (outcome, w') := generateImages sdk ai params w in
    {| completion := outcome; world := w';
       events := [GenerateImages ai params outcome] |}.

(** [await ai.models.generateContent(params)] *)
Definition await_generateContent (ai : GoogleGenAI)
    (params : GenerateContentParameters) : t GenerateContentResponse :=
  fun w =>
    let (outcome, w') := generateContent sdk ai params w in
    {| completion := outcome; world := w';
       events := [GenerateContent ai params outcome] |}.

End Monad.

Arguments t : clear implicits.
Arguments Run : clear implicits.

End Async.

Import Async.

Declare Scope async_scope.
Delimit Scope async_scope with async.
Notation "x <- m ;; k" := (Async.bind m (fun x => k))
  (at level 61, m at next level, right associativity) : async_scope.
Notation "m ;; k" := (Async.bind m (fun _ => k))
  (at level 61, right associativity) : async_scope.

(** ** Code shared by both revisions of the service, line for line *)

(** [for (const part of ps) { if (part.inlineData) { return part.inlineData.data; } }]:
    the payload the loop returns, or [None] when the loop runs to its end. *)
Fixpoint scanParts (ps : list Part) : option string :=
  match ps with
  | [] => None
  | part :: rest =>
      match SDK.inlineData part with
      | Some blob => Some (SDK.data blob)
      | None => scanParts rest
      end
  end.

(** [response.candidates?.[0]?.content?.parts ?? []] *)
Definition responseParts (response : GenerateContentResponse) : list Part :=
  (candidates response ?. (fun cs => nth_error cs 0) ?. content ?. parts ?? [])%js.

(** ** src/services/geminiService.ts *)

Module GeminiService.

Section Service.

Context {World : Type}.
Variable sdk : Backend World.
Variable env : ProcessEnv.

(** Lines 8-20. *)
Definition getAiClient (apiKey : option string) : Completion GoogleGenAI :=
  let effectiveApiKey := or_else apiKey (API_KEY env) in
  match effectiveApiKey with
  | Some (String c k) => Returns {| SDK.apiKey := String c k |}
  | Some EmptyString | None =>
      Throws (Error "API key not provided. Please enter a key or configure the environment variable.")
  end.

(** Lines 39-89, the body of [try].  A branch that executes [return]
    yields [Some payload]; a branch that falls out of the [if] chain yields
    [None] and reaches the [throw] of line 89. *)
Definition tryBlock (prompt aspectRatio model : string)
    (image : option ImageInput.t) (apiKey : option string) : Async.t World string :=
  (ai <- lift (getAiClient apiKey) ;;
   returned <-
     (if model =? "imagen-4.0-generate-001" then
        response <- await_generateImages sdk ai
          {| images_model := "imagen-4.0-generate-001";
             images_prompt := prompt;
             images_config :=
               {| numberOfImages := 1;
                  outputMimeType := "image/png";
                  SDK.aspectRatio := aspectRatio |} |} ;;
        match generatedImages response with
        | Some (first :: _) => ret (Some (imageBytes (SDK.image first)))
        | Some [] | None => ret None
        end
      else if model =? "gemini-2.5-flash-image-preview" then
        let parts : list RequestPart := [] in
        let parts :=
          match image with
          | Some img =>
              push parts
                (InlineDataPart
                   {| SDK.data := ImageInput.data img;
                      SDK.mimeType := ImageInput.mimeType img |})
          | None => parts
          end in
        let parts :=
          if truthy (trim prompt) then push parts (TextPart prompt) else parts in
        if (length parts =? 0)%nat then
          throw (Error "error_prompt_or_image_required_for_edit")
        else
          response <- await_generateContent sdk ai
            {| content_model := "gemini-2.5-flash-image-preview";
               contents := {| request_parts := parts |};
               content_config := {| responseModalities := [IMAGE; TEXT] |} |} ;;
          ret (scanParts (responseParts response))
      else ret None) ;;
   match returned with
   | Some payload => ret payload
   | None => throw (Error "error_no_images_returned")
   end)%async.

(** Lines 91-106, the body of [catch (error)]. *)
Definition catchBlock (error : Thrown) : Async.t World string :=
  (console_error "Error generating image with Gemini API:" error ;;
   match error with
   | Error message =>
       let errorMessage := toLowerCase message in
       if includes errorMessage "429" || includes errorMessage "quota"
          || includes errorMessage "resource_exhausted"
       then throw (Error "error_quota")
       else if includes errorMessage "api" && includes errorMessage "key"
       then throw (Error "error_api_key")
       else throw (Error "error_generic")
   | NonError _ => throw (Error "error_generic")
   end)%async.

(** Lines 31-107. *)
Definition generateImage (prompt aspectRatio model : string)
    (image : option ImageInput.t) (apiKey : option string) : Async.t World string :=
  try_catch (tryBlock prompt aspectRatio model image apiKey) catchBlock.

End Service.

End GeminiService.

(** ** src/unnamed/part_001 *)

Module Part001.

(** Lines 3-8, run once when the module is loaded: the value of the
    constant [defaultAi], or the error that aborts the load. *)
Definition load (env : ProcessEnv) : Completion GoogleGenAI :=
  match API_KEY env with
  | Some (String c k) => Returns {| SDK.apiKey := String c k |}
  | Some EmptyString | None =>
      Throws (Error "API_KEY environment variable not set.")
  end.

Section Service.

Context {World : Type}.
Variable sdk : Backend World.

(** The module-level constant [defaultAi] of a module that loaded. *)
Variable defaultAi : GoogleGenAI.

(** Lines 15-20. *)
Definition getAiClient (apiKey : option string) : GoogleGenAI :=
  match apiKey with
  | Some (String c k) => {| SDK.apiKey := String c k |}
  | Some EmptyString | None => defaultAi
  end.

(** Lines 40-89, the body of [try]; [Some] and [None] as in
    [GeminiService.tryBlock]. *)
Definition tryBlock (ai : GoogleGenAI) (prompt aspectRatio model : string)
    (image : option ImageInput.t) : Async.t World string :=
  (returned <-
     (if model =? "imagen-4.0-generate-001" then
        response <- await_generateImages sdk ai
          {| images_model := "imagen-4.0-generate-001";
             images_prompt := prompt;
             images_config :=
               {| numberOfImages := 1;
                  outputMimeType := "image/png";
                  SDK.aspectRatio := aspectRatio |} |} ;;
        match generatedImages response with
        | Some (first :: _) => ret (Some (imageBytes (SDK.image first)))
        | Some [] | None => ret None
        end
      else if model =? "gemini-2.5-flash-image-preview" then
        let parts : list RequestPart := [] in
        let parts :=
          match image with
          | Some img =>
              push parts
                (InlineDataPart
                   {| SDK.data := ImageInput.data img;
                      SDK.mimeType := ImageInput.mimeType img |})
          | None => parts
          end in
        let parts :=
          if truthy (trim prompt) then push parts (TextPart prompt) else parts in
        if (length parts =? 0)%nat then
          throw (Error "error_prompt_or_image_required_for_edit")
        else
          response <- await_generateContent sdk ai
            {| content_model := "gemini-2.5-flash-image-preview";
               contents := {| request_parts := parts |};
               content_config := {| responseModalities := [IMAGE; TEXT] |} |} ;;
          ret (scanParts (responseParts response))
      else ret None) ;;
   match returned with
   | Some payload => ret payload
   | None => throw (Error "error_no_images_returned")
   end)%async.

(** Lines 91-106, the body of [catch (error)]. *)
Definition catchBlock (error : Thrown) : Async.t World string :=
  (console_error "Error generating image with Gemini API:" error ;;
   match error with
   | Error message =>
       let errorMessage := toLowerCase message in
       if includes errorMessage "429" || includes errorMessage "quota"
          || includes errorMessage "resource_exhausted"
       then throw (Error "error_quota")
       else if includes errorMessage "api" && includes errorMessage "key"
       then throw (Error "error_api_key")
       else throw (Error "error_generic")
   | NonError _ => throw (Error "error_generic")
   end)%async.

(** Lines 31-107. *)
Definition generateImage (prompt aspectRatio model : string)
    (image : option ImageInput.t) (apiKey : option string) : Async.t World string :=
  let ai := getAiClient apiKey in
  try_catch (tryBlock ai prompt aspectRatio model image) catchBlock.

End Service.

End Part001.

(** ** Names for the requests the service builds *)

(** The argument of [generateImages], lines 41-49. *)
Definition imagesRequest (prompt aspectRatio : string) : GenerateImagesParameters :=
  {| images_model := "imagen-4.0-generate-001";
     images_prompt := prompt;
     images_config :=
       {| numberOfImages := 1;
          outputMimeType := "image/png";
          SDK.aspectRatio := aspectRatio |} |}.

(** The value of [parts] when line 70 is reached: lines 55-68. *)
Definition partsAtLine70 (image : option ImageInput.t) (prompt : string) :
    list RequestPart :=
  let parts : list RequestPart := [] in
  let parts :=
    match image with
    | Some img =>
        push parts
          (InlineDataPart
             {| SDK.data := ImageInput.data img;
                SDK.mimeType := ImageInput.mimeType img |})
    | None => parts
    end in
  if truthy (trim prompt) then push parts (TextPart prompt) else parts.

(** The argument of [generateContent], lines 74-80. *)
Definition contentRequest (parts : list RequestPart) : GenerateContentParameters :=
  {| content_model := "gemini-2.5-flash-image-preview";
     contents := {| request_parts := parts |};
     content_config := {| responseModalities := [IMAGE; TEXT] |} |}.

(** What lines 51-53 make of a [generateImages] response, and lines 82-86
    of a [generateContent] response: the payload returned, if any. *)
Definition firstImage (response : GenerateImagesResponse) : option string :=
  match generatedImages response with
  | Some (first :: _) => Some (imageBytes (SDK.image first))
  | Some [] | None => None
  end.

(** Line 89 after a branch that returned nothing. *)
Definition orNoImages (returned : option string) : Completion string :=
  match returned with
  | Some payload => Returns payload
  | None => Throws (Error "error_no_images_returned")
  end.

(** The client handle a recorded backend call was made with. *)
Definition callClient (e : Event) : option GoogleGenAI :=
  match e with
  | GenerateImages ai _ _ | GenerateContent ai _ _ => Some ai
  | ConsoleError _ _ => None
  end.

(** ** The ways the [try] block of [GeminiService.generateImage] can run

    One constructor per path through lines 39-89, with the run that the
    path produces; [GeminiService.tryBlock] is shown below to follow one of
    them on every input. *)

Section TryCases.

Context {World : Type}.
Variable sdk : Backend World.
Variable env : ProcessEnv.

Variant TryCase (prompt aspectRatio model : string)
    (image : option ImageInput.t) (apiKey : option string) (w : World)
    (tried : Async.Run World string) : Prop :=
| NoClient (e : Thrown) :
    GeminiService.getAiClient env apiKey = Throws e ->
    tried = {| completion := Throws e; world := w; events := [] |} ->
    TryCase prompt aspectRatio model image apiKey w tried
| TextToImage (ai : GoogleGenAI)
    (outcome : Completion GenerateImagesResponse) (w' : World) :
    GeminiService.getAiClient env apiKey = Returns ai ->
    model = "imagen-4.0-generate-001" ->
    generateImages sdk ai (imagesRequest prompt aspectRatio) w = (outcome, w') ->
    tried = {| completion :=
                 match outcome with
                 | Returns response => orNoImages (firstImage response)
                 | Throws t => Throws t
                 end;
               world := w';
               events := [GenerateImages ai (imagesRequest prompt aspectRatio) outcome] |} ->
    TryCase prompt aspectRatio model image apiKey w tried
| NothingToEdit (ai : GoogleGenAI) :
    GeminiService.getAiClient env apiKey = Returns ai ->
    model = "gemini-2.5-flash-image-preview" ->
    partsAtLine70 image prompt = [] ->
    tried = {| completion := Throws (Error "error_prompt_or_image_required_for_edit");
               world := w; events := [] |} ->
    TryCase prompt aspectRatio model image apiKey w tried
| Edit (ai : GoogleGenAI)
    (outcome : Completion GenerateContentResponse) (w' : World) :
    GeminiService.getAiClient env apiKey = Returns ai ->
    model = "gemini-2.5-flash-image-preview" ->
    partsAtLine70 image prompt <> [] ->
    generateContent sdk ai (contentRequest (partsAtLine70 image prompt)) w
      = (outcome, w') ->
    tried = {| completion :=
                 match outcome with
                 | Returns response => orNoImages (scanParts (responseParts response))
                 | Throws t => Throws t
                 end;
               world := w';
               events :=
                 [GenerateContent ai (contentRequest (partsAtLine70 image prompt))
                    outcome] |} ->
    TryCase prompt aspectRatio model image apiKey w tried
| UnknownModel (ai : GoogleGenAI) :
    GeminiService.getAiClient env apiKey = Returns ai ->
    model <> "imagen-4.0-generate-001" ->
    model <> "gemini-2.5-flash-image-preview" ->
    tried = {| completion := Throws (Error "error_no_images_returned");
               world := w; events := [] |} ->
    TryCase prompt aspectRatio model image apiKey w tried.

End TryCases.

(** ** Backend stubs

    Deterministic stand-ins for the remote service, used to run the service
    on concrete inputs.  The state of a stub is the number of requests it
    has served. *)

Module Stub.

(** A backend that answers every request with a fixed outcome. *)
Definition backend (images : Completion GenerateImagesResponse)
    (content : Completion GenerateContentResponse) : Backend nat :=
  {| generateImages := fun _ _ served => (images, S served);
     generateContent := fun _ _ served => (content, S served) |}.

Definition generated (bytes : string) : GeneratedImage :=
  {| SDK.image := {| imageBytes := bytes |} |}.

Definition imagesOf (bytes : list string) : GenerateImagesResponse :=
  {| generatedImages := Some (map generated bytes) |}.

Definition textOnly (s : string) : Part :=
  {| SDK.text := Some s; SDK.inlineData := None |}.

Definition binary (payload : string) : Part :=
  {| SDK.text := None;
     SDK.inlineData := Some {| SDK.data := payload; SDK.mimeType := "image/png" |} |}.

Definition candidate (ps : list Part) : Candidate :=
  {| content := Some {| parts := Some ps |} |}.

Definition contentOf (cs : list (list Part)) : GenerateContentResponse :=
  {| candidates := Some (map candidate cs) |}.

Definition noContent : GenerateContentResponse := {| candidates := None |}.

Definition fox : ImageInput.t :=
  {| ImageInput.data := "Rk9Y"; ImageInput.mimeType := "image/jpeg" |}.

Definition noEnv : ProcessEnv := {| API_KEY := None |}.
Definition envKey : ProcessEnv := {| API_KEY := Some "env-key" |}.

(** One generated image, ["AAAA"]. *)
Definition oneImage : Backend nat :=
  backend (Returns (imagesOf ["AAAA"])) (Returns noContent).

(** Successful responses that carry no image. *)
Definition noImages : Backend nat :=
  backend (Returns (imagesOf [])) (Returns (contentOf [[textOnly "sorry"]])).

(** One candidate: a text part, then a binary part ["BBBB"]. *)
Definition secondPartResponse : GenerateContentResponse :=
  contentOf [[textOnly "here it is"; binary "BBBB"]].

Definition secondPart : Backend nat :=
  backend (Returns (imagesOf [])) (Returns secondPartResponse).

(** Two candidates: the first has a text part only, the second has the
    binary part ["BBBB"]. *)
Definition secondCandidateResponse : GenerateContentResponse :=
  contentOf [[textOnly "here it is"]; [binary "BBBB"]].

Definition secondCandidate : Backend nat :=
  backend (Returns (imagesOf [])) (Returns secondCandidateResponse).

(** Every request is refused for rate limiting. *)
Definition rateLimited : Backend nat :=
  backend (Throws (Error "429 Too Many Requests"))
          (Throws (Error "RESOURCE_EXHAUSTED: Quota exceeded")).

End Stub.

(** Further stubs: backends that fail in other ways. *)

Module Scenario.

(** The backend rejects the credential. *)
Definition badKey : Backend nat :=
  Stub.backend
    (Throws (Error "API key not valid. Please pass a valid API key."))
    (Throws (Error "API key not valid. Please pass a valid API key.")).

(** The backend cannot be reached. *)
Definition offline : Backend nat :=
  Stub.backend (Throws (Error "fetch failed")) (Throws (Error "fetch failed")).

(** The SDK rejects with a value that is not an [Error]. *)
Definition rejectsWithString : Backend nat :=
  Stub.backend (Throws (NonError "429 quota exceeded"))
               (Throws (NonError "429 quota exceeded")).

End Scenario.

(** ** Properties of the string methods *)

Lemma truthy_true_iff (s : string) : truthy s = true <-> s <> "".
Proof. destruct s; simpl; split; congruence. Qed.

Lemma or_else_falsy (a b : option string) :
  truthy_opt a = false -> or_else a b = b.
Proof. unfold or_else; intros ->; reflexivity. Qed.

Lemma list_eq_dec_nil {A : Type} (l : list A) : {l = []} + {l <> []}.
Proof. destruct l; [left; reflexivity | right; discriminate]. Qed.

(** ** The scan of the response parts *)

Lemma scanParts_none (ps : list Part) :
  Forall (fun part => SDK.inlineData part = None) ps -> scanParts ps = None.
Proof.
  induction 1 as [|part rest Hpart _ IH]; simpl; [reflexivity|].
  rewrite Hpart. exact IH.
Qed.

(** The scan returns the payload of the first part that carries inline
    data, whatever follows it. *)
Lemma scanParts_first (skipped later : list Part) (part : Part) (blob : Blob) :
  Forall (fun p => SDK.inlineData p = None) skipped ->
  SDK.inlineData part = Some blob ->
  scanParts (skipped ++ part :: later) = Some (SDK.data blob).
Proof.
  intros Hskipped Hpart.
  induction Hskipped as [|p rest Hp _ IH]; simpl.
  - rewrite Hpart. reflexivity.
  - rewrite Hp. exact IH.
Qed.

(** ** Properties of the monad *)

Section AsyncFacts.

Context {World : Type}.
Implicit Types w : World.

Lemma try_catch_returns {A} (body : Async.t World A) handler w a :
  completion (body w) = Returns a ->
  try_catch body handler w = body w.
Proof. unfold try_catch; intros ->; reflexivity. Qed.

Lemma try_catch_throws {A} (body : Async.t World A) handler w e :
  completion (body w) = Throws e ->
  try_catch body handler w =
  {| completion := completion (handler e (world (body w)));
     world := world (handler e (world (body w)));
     events := events (body w) ++ events (handler e (world (body w))) |}.
Proof. unfold try_catch; intros ->; reflexivity. Qed.

Lemma Run_eta {A} (r : Async.Run World A) :
  {| completion := completion r; world := world r; events := events r |} = r.
Proof. destruct r; reflexivity. Qed.

(** A synchronous call that returns adds nothing to the run. *)
Lemma bind_lift_returns {A B} (a : A) (k : A -> Async.t World B) w :
  bind (lift (Returns a)) k w = k a w.
Proof. unfold bind, lift; simpl. apply Run_eta. Qed.

End AsyncFacts.

(** ** The [catch] block of [GeminiService.generateImage] *)

Section CatchBlock.

Context {World : Type}.
Implicit Types w : World.

(** The [catch] block logs the error it caught, calls nothing, and leaves
    the remote service alone. *)
Lemma catchBlock_events (error : Thrown) w :
  events (GeminiService.catchBlock error w) =
    [ConsoleError "Error generating image with Gemini API:" error]
  /\ world (GeminiService.catchBlock error w) = w.
Proof.
  unfold GeminiService.catchBlock, bind, console_error, throw; simpl.
  destruct error as [message|value]; simpl.
  - destruct (includes _ "429" || includes _ "quota" || includes _ "resource_exhausted");
      [|destruct (includes _ "api" && includes _ "key")]; simpl; auto.
  - auto.
Qed.

Lemma catchBlock_quota (message : string) w :
  includes (toLowerCase message) "429"
  || includes (toLowerCase message) "quota"
  || includes (toLowerCase message) "resource_exhausted" = true ->
  completion (GeminiService.catchBlock (Error message) w) = Throws (Error "error_quota").
Proof.
  intros H. unfold GeminiService.catchBlock, bind, console_error, throw; simpl.
  rewrite H. reflexivity.
Qed.

End CatchBlock.

(** ** The [try] block of [GeminiService.generateImage], branch by branch *)

Section TryBlock.

Context {World : Type}.
Variable sdk : Backend World.
Variable env : ProcessEnv.
Implicit Types (w : World) (prompt aspectRatio model : string).

Ltac run_try :=
  unfold GeminiService.tryBlock, bind, lift, ret, throw,
    await_generateImages, await_generateContent; simpl.

(** No credential: the block throws what [getAiClient] threw, at once. *)
Lemma tryBlock_no_client prompt aspectRatio model image apiKey w e :
  GeminiService.getAiClient env apiKey = Throws e ->
  GeminiService.tryBlock sdk env prompt aspectRatio model image apiKey w =
  {| completion := Throws e; world := w; events := [] |}.
Proof. intros H. run_try. rewrite H. reflexivity. Qed.

(** The text-to-image branch: one [generateImages] call. *)
Lemma tryBlock_imagen prompt aspectRatio image apiKey w ai :
  GeminiService.getAiClient env apiKey = Returns ai ->
  GeminiService.tryBlock sdk env prompt aspectRatio
    "imagen-4.0-generate-001" image apiKey w =
  let call := generateImages sdk ai (imagesRequest prompt aspectRatio) w in
  {| completion :=
       match fst call with
       | Returns response => orNoImages (firstImage response)
       | Throws t => Throws t
       end;
     world := snd call;
     events := [GenerateImages ai (imagesRequest prompt aspectRatio) (fst call)] |}.
Proof.
  intros H. run_try. rewrite H. simpl.
  fold (imagesRequest prompt aspectRatio).
  destruct (generateImages sdk ai (imagesRequest prompt aspectRatio) w)
    as [[response|t] w']; simpl; [|reflexivity].
  unfold firstImage.
  destruct (generatedImages response) as [[|first rest]|]; reflexivity.
Qed.

(** The edit branch with nothing to send: no call. *)
Lemma tryBlock_edit_empty prompt aspectRatio image apiKey w ai :
  GeminiService.getAiClient env apiKey = Returns ai ->
  partsAtLine70 image prompt = [] ->
  GeminiService.tryBlock sdk env prompt aspectRatio
    "gemini-2.5-flash-image-preview" image apiKey w =
  {| completion := Throws (Error "error_prompt_or_image_required_for_edit");
     world := w; events := [] |}.
Proof.
  intros H Hparts. run_try. rewrite H. simpl.
  fold (partsAtLine70 image prompt). rewrite Hparts. reflexivity.
Qed.

(** The edit branch with something to send: one [generateContent] call. *)
Lemma tryBlock_edit prompt aspectRatio image apiKey w ai :
  GeminiService.getAiClient env apiKey = Returns ai ->
  partsAtLine70 image prompt <> [] ->
  GeminiService.tryBlock sdk env prompt aspectRatio
    "gemini-2.5-flash-image-preview" image apiKey w =
  let request := contentRequest (partsAtLine70 image prompt) in
  let call := generateContent sdk ai request w in
  {| completion :=
       match fst call with
       | Returns response => orNoImages (scanParts (responseParts response))
       | Throws t => Throws t
       end;
     world := snd call;
     events := [GenerateContent ai request (fst call)] |}.
Proof.
  intros H Hparts. run_try. rewrite H. simpl.
  fold (partsAtLine70 image prompt).
  destruct (partsAtLine70 image prompt) as [|p ps] eqn:E; [congruence|]. simpl.
  fold (contentRequest (p :: ps)).
  destruct (generateContent sdk ai (contentRequest (p :: ps)) w)
    as [[response|t] w']; simpl; [|reflexivity].
  destruct (scanParts (responseParts response)); reflexivity.
Qed.

(** Any other model tag: no call. *)
Lemma tryBlock_other prompt aspectRatio model image apiKey w ai :
  GeminiService.getAiClient env apiKey = Returns ai ->
  model <> "imagen-4.0-generate-001" ->
  model <> "gemini-2.5-flash-image-preview" ->
  GeminiService.tryBlock sdk env prompt aspectRatio model image apiKey w =
  {| completion := Throws (Error "error_no_images_returned");
     world := w; events := [] |}.
Proof.
  intros H Ha Hb. run_try. rewrite H. simpl.
  apply String.eqb_neq in Ha, Hb. rewrite Ha, Hb. reflexivity.
Qed.

End TryBlock.

(** ** [GeminiService.generateImage] from its [try] block *)

Section GenerateImage.

Context {World : Type}.
Variable sdk : Backend World.
Variable env : ProcessEnv.
Implicit Types (w : World) (prompt aspectRatio model : string).

Lemma generateImage_returns prompt aspectRatio model image apiKey w payload :
  completion (GeminiService.tryBlock sdk env prompt aspectRatio model image apiKey w)
    = Returns payload ->
  GeminiService.generateImage sdk env prompt aspectRatio model image apiKey w =
  GeminiService.tryBlock sdk env prompt aspectRatio model image apiKey w.
Proof. apply try_catch_returns. Qed.

Lemma generateImage_throws prompt aspectRatio model image apiKey w e :
  completion (GeminiService.tryBlock sdk env prompt aspectRatio model image apiKey w)
    = Throws e ->
  let tried := GeminiService.tryBlock sdk env prompt aspectRatio model image apiKey w in
  GeminiService.generateImage sdk env prompt aspectRatio model image apiKey w =
  {| completion := completion (GeminiService.catchBlock e (world tried));
     world := world tried;
     events := events tried
               ++ [ConsoleError "Error generating image with Gemini API:" e] |}.
Proof.
  intros H tried. unfold GeminiService.generateImage.
  rewrite (try_catch_throws _ _ _ H). fold tried.
  destruct (catchBlock_events e (world tried)) as [-> ->]. reflexivity.
Qed.

(** The events of an invocation are those of its [try] block, followed by
    the console output of its [catch] block if that ran. *)
Lemma generateImage_backendCalls prompt aspectRatio model image apiKey w :
  backendCalls
    (events (GeminiService.generateImage sdk env prompt aspectRatio model image apiKey w))
  = backendCalls
      (events (GeminiService.tryBlock sdk env prompt aspectRatio model image apiKey w)).
Proof.
  destruct (completion (GeminiService.tryBlock sdk env prompt aspectRatio model image apiKey w))
    as [payload|e] eqn:E.
  - rewrite (generateImage_returns _ _ _ _ _ _ E). reflexivity.
  - rewrite (generateImage_throws _ _ _ _ _ _ E). simpl.
    unfold backendCalls. rewrite filter_app. simpl. apply app_nil_r.
Qed.

Lemma generateImage_backend_event prompt aspectRatio model image apiKey w ev :
  In ev (events (GeminiService.generateImage sdk env prompt aspectRatio model image apiKey w)) ->
  isBackendCall ev = true ->
  In ev (events (GeminiService.tryBlock sdk env prompt aspectRatio model image apiKey w)).
Proof.
  intros Hin Hcall.
  assert (H : In ev (backendCalls (events
    (GeminiService.generateImage sdk env prompt aspectRatio model image apiKey w)))).
  { apply filter_In; auto. }
  rewrite generateImage_backendCalls in H. apply filter_In in H. tauto.
Qed.

End GenerateImage.

(** ** What a recorded backend call tells about the invocation *)

Section BackendCalls.

Context {World : Type}.
Variable sdk : Backend World.
Variable env : ProcessEnv.
Implicit Types (w : World) (prompt aspectRatio model : string).

Lemma generateImage_completion_throws prompt aspectRatio model image apiKey w e :
  completion (GeminiService.tryBlock sdk env prompt aspectRatio model image apiKey w)
    = Throws e ->
  completion (GeminiService.generateImage sdk env prompt aspectRatio model image apiKey w)
  = completion
      (GeminiService.catchBlock e
         (world (GeminiService.tryBlock sdk env prompt aspectRatio model image apiKey w))).
Proof. intros H. rewrite (generateImage_throws _ _ _ _ _ _ _ _ H). reflexivity. Qed.

Lemma generateImage_completion_returns prompt aspectRatio model image apiKey w payload :
  completion (GeminiService.tryBlock sdk env prompt aspectRatio model image apiKey w)
    = Returns payload ->
  completion (GeminiService.generateImage sdk env prompt aspectRatio model image apiKey w)
  = Returns payload.
Proof. intros H. rewrite (generateImage_returns _ _ _ _ _ _ _ _ H). exact H. Qed.

(** A [generateImages] call recorded by a text-to-image invocation is the
    call of line 41, and its outcome decides how the [try] block ends. *)
Lemma imagen_call_inv prompt aspectRatio image apiKey w ai params outcome :
  In (GenerateImages ai params outcome)
     (events (GeminiService.generateImage sdk env prompt aspectRatio
                "imagen-4.0-generate-001" image apiKey w)) ->
  GeminiService.getAiClient env apiKey = Returns ai
  /\ params = imagesRequest prompt aspectRatio
  /\ completion (GeminiService.tryBlock sdk env prompt aspectRatio
                   "imagen-4.0-generate-001" image apiKey w)
     = match outcome with
       | Returns response => orNoImages (firstImage response)
       | Throws t => Throws t
       end.
Proof.
  intros Hin. apply generateImage_backend_event in Hin; [|reflexivity].
  destruct (GeminiService.getAiClient env apiKey) as [ai'|e] eqn:Hai.
  - rewrite (tryBlock_imagen sdk env prompt aspectRatio image apiKey w Hai) in *.
    simpl in Hin. destruct Hin as [Heq|[]]. injection Heq as -> <- <-.
    auto.
  - rewrite (tryBlock_no_client sdk env prompt aspectRatio _ image apiKey w Hai) in Hin.
    destruct Hin.
Qed.

(** A [generateContent] call recorded by an edit invocation is the call of
    line 74. *)
Lemma edit_call_inv prompt aspectRatio image apiKey w ai params outcome :
  In (GenerateContent ai params outcome)
     (events (GeminiService.generateImage sdk env prompt aspectRatio
                "gemini-2.5-flash-image-preview" image apiKey w)) ->
  GeminiService.getAiClient env apiKey = Returns ai
  /\ partsAtLine70 image prompt <> []
  /\ params = contentRequest (partsAtLine70 image prompt)
  /\ completion (GeminiService.tryBlock sdk env prompt aspectRatio
                   "gemini-2.5-flash-image-preview" image apiKey w)
     = match outcome with
       | Returns response => orNoImages (scanParts (responseParts response))
       | Throws t => Throws t
       end.
Proof.
  intros Hin. apply generateImage_backend_event in Hin; [|reflexivity].
  destruct (GeminiService.getAiClient env apiKey) as [ai'|e] eqn:Hai.
  - destruct (list_eq_dec_nil (partsAtLine70 image prompt)) as [Hnil|Hcons].
    + rewrite (tryBlock_edit_empty sdk env prompt aspectRatio image apiKey w Hai Hnil) in Hin.
      destruct Hin.
    + rewrite (tryBlock_edit sdk env prompt aspectRatio image apiKey w Hai Hcons) in *.
      simpl in Hin. destruct Hin as [Heq|[]]. injection Heq as -> <- <-.
      auto.
  - rewrite (tryBlock_no_client sdk env prompt aspectRatio _ image apiKey w Hai) in Hin.
    destruct Hin.
Qed.

Lemma backendThrew_isBackendCall (ev : Event) (t : Thrown) :
  backendThrew ev = Some t -> isBackendCall ev = true.
Proof. destruct ev; simpl; congruence. Qed.

(** Whatever the model tag, if a recorded backend call threw, then the
    [try] block ended by throwing the same value. *)
Lemma backend_threw_inv prompt aspectRatio model image apiKey w ev t :
  In ev (events (GeminiService.generateImage sdk env prompt aspectRatio
                   model image apiKey w)) ->
  backendThrew ev = Some t ->
  completion (GeminiService.tryBlock sdk env prompt aspectRatio model image apiKey w)
  = Throws t.
Proof.
  intros Hin Hthrew.
  apply generateImage_backend_event in Hin;
    [|exact (backendThrew_isBackendCall _ Hthrew)].
  destruct (GeminiService.getAiClient env apiKey) as [ai|e] eqn:Hai.
  2: { rewrite (tryBlock_no_client sdk env prompt aspectRatio model image apiKey w Hai) in Hin.
       destruct Hin. }
  destruct (String.eqb_spec model "imagen-4.0-generate-001") as [->|Ha].
  - rewrite (tryBlock_imagen sdk env prompt aspectRatio image apiKey w Hai) in *.
    simpl in *. destruct Hin as [<-|[]]. simpl in Hthrew.
    destruct (fst (generateImages sdk ai (imagesRequest prompt aspectRatio) w));
      congruence.
  - destruct (String.eqb_spec model "gemini-2.5-flash-image-preview") as [->|Hb].
    + destruct (list_eq_dec_nil (partsAtLine70 image prompt)) as [Hnil|Hcons].
      * rewrite (tryBlock_edit_empty sdk env prompt aspectRatio image apiKey w Hai Hnil) in Hin.
        destruct Hin.
      * rewrite (tryBlock_edit sdk env prompt aspectRatio image apiKey w Hai Hcons) in *.
        simpl in *. destruct Hin as [<-|[]]. simpl in Hthrew.
        destruct (fst (generateContent sdk ai
                         (contentRequest (partsAtLine70 image prompt)) w));
          congruence.
    + rewrite (tryBlock_other sdk env prompt aspectRatio image apiKey w Hai Ha Hb) in Hin.
      destruct Hin.
Qed.

(** The [catch] block rethrows one of three codes, never the error it
    caught. *)
Lemma catchBlock_codes (error : Thrown) w :
  completion (GeminiService.catchBlock error w) = Throws (Error "error_quota")
  \/ completion (GeminiService.catchBlock error w) = Throws (Error "error_api_key")
  \/ completion (GeminiService.catchBlock error w) = Throws (Error "error_generic").
Proof.
  unfold GeminiService.catchBlock, bind, console_error, throw; simpl.
  destruct error as [message|value]; simpl; [|auto].
  destruct (includes _ "429" || includes _ "quota" || includes _ "resource_exhausted");
    [|destruct (includes _ "api" && includes _ "key")]; simpl; auto.
Qed.

(** So an invocation returns a payload or fails with one of those three
    codes: [error_no_images_returned] and
    [error_prompt_or_image_required_for_edit] never reach the caller. *)
Lemma generateImage_outcomes prompt aspectRatio model image apiKey w :
  (exists payload,
      completion (GeminiService.generateImage sdk env prompt aspectRatio
                    model image apiKey w) = Returns payload)
  \/ (exists code,
         completion (GeminiService.generateImage sdk env prompt aspectRatio
                       model image apiKey w) = Throws (Error code)
         /\ (code = "error_quota" \/ code = "error_api_key"
             \/ code = "error_generic")).
Proof.
  destruct (completion (GeminiService.tryBlock sdk env prompt aspectRatio
                          model image apiKey w)) as [payload|e] eqn:Htry.
  - left. exists payload. exact (generateImage_completion_returns _ _ _ _ _ _ Htry).
  - right. rewrite (generateImage_completion_throws _ _ _ _ _ _ Htry).
    destruct (catchBlock_codes e
                (world (GeminiService.tryBlock sdk env prompt aspectRatio
                          model image apiKey w))) as [H|[H|H]];
      rewrite H; eexists; split; eauto.
Qed.

End BackendCalls.

(** ** Credential resolution *)

Lemma getAiClient_missing (env : ProcessEnv) (apiKey : option string) :
  truthy_opt apiKey = false ->
  truthy_opt (API_KEY env) = false ->
  GeminiService.getAiClient env apiKey =
  Throws (Error "API key not provided. Please enter a key or configure the environment variable.").
Proof.
  intros Ha He. unfold GeminiService.getAiClient.
  rewrite (or_else_falsy _ _ Ha).
  destruct (API_KEY env) as [[|c k]|]; simpl in He; congruence.
Qed.

(** ** The properties stated by the specification *)

Unset Implicit Arguments.

(** C1. Every call to [generateImage] whose credential override is absent
    or empty, made while the process-wide default credential is unset (or
    empty), fails with [error_api_key]; no backend operation is invoked and
    the remote service is left as it was. *)
Theorem C1_missing_credential_fails_with_error_api_key :
  forall (World : Type) (sdk : Backend World) (env : ProcessEnv)
         (prompt aspectRatio model : string) (image : option ImageInput.t)
         (apiKey : option string) (w : World),
    truthy_opt apiKey = false ->
    truthy_opt (API_KEY env) = false ->
    completion (GeminiService.generateImage sdk env prompt aspectRatio model image apiKey w)
      = Throws (Error "error_api_key")
    /\ backendCalls
         (events (GeminiService.generateImage sdk env prompt aspectRatio model image apiKey w))
       = []
    /\ world (GeminiService.generateImage sdk env prompt aspectRatio model image apiKey w)
       = w.
Proof.
  intros World sdk env prompt aspectRatio model image apiKey w Ha He.
  pose proof (tryBlock_no_client sdk env prompt aspectRatio model image apiKey w
                (getAiClient_missing env apiKey Ha He)) as Htry.
  assert (Hthrow : completion
            (GeminiService.tryBlock sdk env prompt aspectRatio model image apiKey w)
          = Throws (Error "API key not provided. Please enter a key or configure the environment variable."))
    by (rewrite Htry; reflexivity).
  rewrite (generateImage_throws _ _ _ _ _ _ _ _ Hthrow), Htry.
  repeat split.
Qed.

(** The witness of C1: no override, no default. *)
Lemma C1_witness :
  truthy_opt None = false
  /\ truthy_opt (API_KEY Stub.noEnv) = false
  /\ completion
       (GeminiService.generateImage Stub.oneImage Stub.noEnv
          "a red fox" "1:1" "imagen-4.0-generate-001" None None 0)
     = Throws (Error "error_api_key")
  /\ backendCalls
       (events
          (GeminiService.generateImage Stub.oneImage Stub.noEnv
             "a red fox" "1:1" "imagen-4.0-generate-001" None None 0))
     = []
  /\ world
       (GeminiService.generateImage Stub.oneImage Stub.noEnv
          "a red fox" "1:1" "imagen-4.0-generate-001" None None 0)
     = 0.
Proof.
  split; [reflexivity|]. split; [reflexivity|].
  apply (C1_missing_credential_fails_with_error_api_key nat Stub.oneImage
           Stub.noEnv "a red fox" "1:1" "imagen-4.0-generate-001" None None 0);
    reflexivity.
Defined.

(** C2 (the code departs from the claim). An edit-variant call whose prompt
    trims to the empty string and that carries no image makes no backend
    call, as claimed; but the error the block throws at line 71 is caught by
    the [catch] block of the same function, whose message tests it fails, so
    the caller observes [error_generic] and not
    [error_prompt_or_image_required_for_edit]. *)
Theorem C2_blank_edit_request_observed_as_error_generic :
  forall (World : Type) (sdk : Backend World) (env : ProcessEnv)
         (prompt aspectRatio : string) (apiKey : option string)
         (ai : GoogleGenAI) (w : World),
    trim prompt = "" ->
    GeminiService.getAiClient env apiKey = Returns ai ->
    GeminiService.generateImage sdk env prompt aspectRatio
      "gemini-2.5-flash-image-preview" None apiKey w
    = {| completion := Throws (Error "error_generic");
         world := w;
         events :=
           [ConsoleError "Error generating image with Gemini API:"
              (Error "error_prompt_or_image_required_for_edit")] |}.
Proof.
  intros World sdk env prompt aspectRatio apiKey ai w Hblank Hai.
  assert (Hparts : partsAtLine70 None prompt = [])
    by (unfold partsAtLine70; rewrite Hblank; reflexivity).
  pose proof (tryBlock_edit_empty sdk env prompt aspectRatio None apiKey w Hai Hparts) as Htry.
  rewrite (generateImage_throws sdk env prompt aspectRatio
             "gemini-2.5-flash-image-preview" None apiKey w
             (e := Error "error_prompt_or_image_required_for_edit"));
    rewrite Htry; reflexivity.
Qed.

(** The witness of C2: a prompt of two spaces, no image, a valid override. *)
Lemma C2_witness :
  trim "  " = ""
  /\ GeminiService.getAiClient Stub.noEnv (Some "k") = Returns {| SDK.apiKey := "k" |}
  /\ GeminiService.generateImage Stub.secondPart Stub.noEnv "  " "1:1"
       "gemini-2.5-flash-image-preview" None (Some "k") 0
     = {| completion := Throws (Error "error_generic");
          world := 0;
          events :=
            [ConsoleError "Error generating image with Gemini API:"
               (Error "error_prompt_or_image_required_for_edit")] |}.
Proof.
  split; [reflexivity|]. split; [reflexivity|].
  apply (C2_blank_edit_request_observed_as_error_generic nat Stub.secondPart
           Stub.noEnv "  " "1:1" (Some "k") {| SDK.apiKey := "k" |} 0);
    reflexivity.
Defined.

(** The [catch] block turns the error of line 89 into [error_generic]. *)
Lemma catchBlock_no_images {World : Type} (w : World) :
  completion (GeminiService.catchBlock (Error "error_no_images_returned") w)
  = Throws (Error "error_generic").
Proof. reflexivity. Qed.

(** C3 (the code departs from the claim). When the backend call succeeds
    without a usable image payload (a text-to-image response whose list of
    generated images is empty or absent, an edit response none of whose
    scanned parts carries inline data) or the model tag is not recognised,
    the block throws [error_no_images_returned] at line 89; the [catch]
    block of the same function catches it, and the caller observes
    [error_generic]. *)
Theorem C3_no_image_payload_observed_as_error_generic :
  forall (World : Type) (sdk : Backend World) (env : ProcessEnv)
         (prompt aspectRatio : string) (image : option ImageInput.t)
         (apiKey : option string) (w : World),
    (forall ai params response,
        In (GenerateImages ai params (Returns response))
           (events (GeminiService.generateImage sdk env prompt aspectRatio
                      "imagen-4.0-generate-001" image apiKey w)) ->
        generatedImages response = Some [] \/ generatedImages response = None ->
        completion (GeminiService.generateImage sdk env prompt aspectRatio
                      "imagen-4.0-generate-001" image apiKey w)
        = Throws (Error "error_generic"))
    /\ (forall ai params response,
        In (GenerateContent ai params (Returns response))
           (events (GeminiService.generateImage sdk env prompt aspectRatio
                      "gemini-2.5-flash-image-preview" image apiKey w)) ->
        Forall (fun part => SDK.inlineData part = None) (responseParts response) ->
        completion (GeminiService.generateImage sdk env prompt aspectRatio
                      "gemini-2.5-flash-image-preview" image apiKey w)
        = Throws (Error "error_generic"))
    /\ (forall ai model,
        GeminiService.getAiClient env apiKey = Returns ai ->
        model <> "imagen-4.0-generate-001" ->
        model <> "gemini-2.5-flash-image-preview" ->
        completion (GeminiService.generateImage sdk env prompt aspectRatio
                      model image apiKey w)
        = Throws (Error "error_generic")
        /\ backendCalls
             (events (GeminiService.generateImage sdk env prompt aspectRatio
                        model image apiKey w)) = []).
Proof.
  intros World sdk env prompt aspectRatio image apiKey w.
  split; [|split].
  - intros ai params response Hin Hnone.
    destruct (imagen_call_inv sdk env prompt aspectRatio image apiKey w _ _ _ Hin)
      as (_ & _ & Htry).
    assert (Hfirst : firstImage response = None)
      by (unfold firstImage; destruct Hnone as [-> | ->]; reflexivity).
    rewrite Hfirst in Htry. simpl in Htry.
    rewrite (generateImage_completion_throws _ _ _ _ _ _ _ _ Htry).
    apply catchBlock_no_images.
  - intros ai params response Hin Hnone.
    destruct (edit_call_inv sdk env prompt aspectRatio image apiKey w _ _ _ Hin)
      as (_ & _ & _ & Htry).
    rewrite (scanParts_none Hnone) in Htry. simpl in Htry.
    rewrite (generateImage_completion_throws _ _ _ _ _ _ _ _ Htry).
    apply catchBlock_no_images.
  - intros ai model Hai Ha Hb.
    pose proof (tryBlock_other sdk env prompt aspectRatio image apiKey w Hai Ha Hb)
      as Htry.
    rewrite generateImage_backendCalls.
    rewrite (generateImage_completion_throws sdk env prompt aspectRatio model
               image apiKey w (e := Error "error_no_images_returned"));
      rewrite Htry; split; reflexivity.
Qed.

(** The witness of C3: responses without an image, and a model tag the
    service does not know. *)
Lemma C3_witness :
  completion
    (GeminiService.generateImage Stub.noImages Stub.envKey "a red fox" "1:1"
       "imagen-4.0-generate-001" None None 0)
  = Throws (Error "error_generic")
  /\ completion
       (GeminiService.generateImage Stub.noImages Stub.envKey "a red fox" "1:1"
          "gemini-2.5-flash-image-preview" None None 0)
     = Throws (Error "error_generic")
  /\ completion
       (GeminiService.generateImage Stub.noImages Stub.envKey "a red fox" "1:1"
          "imagen-3.0" None None 0)
     = Throws (Error "error_generic").
Proof.
  destruct (C3_no_image_payload_observed_as_error_generic nat Stub.noImages
              Stub.envKey "a red fox" "1:1" None None 0) as (Ha & Hb & Hc).
  split; [|split].
  - apply (Ha {| SDK.apiKey := "env-key" |} (imagesRequest "a red fox" "1:1")
              (Stub.imagesOf [])).
    + left; reflexivity.
    + left; reflexivity.
  - apply (Hb {| SDK.apiKey := "env-key" |}
              (contentRequest [TextPart "a red fox"])
              (Stub.contentOf [[Stub.textOnly "sorry"]])).
    + left; reflexivity.
    + repeat constructor.
  - apply (Hc {| SDK.apiKey := "env-key" |} "imagen-3.0").
    + reflexivity.
    + discriminate.
    + discriminate.
Defined.

(** C4. Whatever the model tag, if the backend call of an invocation throws
    an [Error] whose lower-cased message contains ["429"], ["quota"] or
    ["resource_exhausted"], the invocation fails with [error_quota]. *)
Theorem C4_backend_quota_error_fails_with_error_quota :
  forall (World : Type) (sdk : Backend World) (env : ProcessEnv)
         (prompt aspectRatio model : string) (image : option ImageInput.t)
         (apiKey : option string) (w : World) (ev : Event) (message : string),
    In ev (events (GeminiService.generateImage sdk env prompt aspectRatio
                     model image apiKey w)) ->
    backendThrew ev = Some (Error message) ->
    includes (toLowerCase message) "429"
    || includes (toLowerCase message) "quota"
    || includes (toLowerCase message) "resource_exhausted" = true ->
    completion (GeminiService.generateImage sdk env prompt aspectRatio
                  model image apiKey w)
    = Throws (Error "error_quota").
Proof.
  intros World sdk env prompt aspectRatio model image apiKey w ev message
         Hin Hthrew Hquota.
  pose proof (backend_threw_inv sdk env prompt aspectRatio model image apiKey w
                ev Hin Hthrew) as Htry.
  rewrite (generateImage_completion_throws _ _ _ _ _ _ _ _ Htry).
  apply catchBlock_quota. exact Hquota.
Qed.

(** The witness of C4: a backend that refuses every request for rate
    limiting, reached through either branch. *)
Lemma C4_witness :
  (In (GenerateImages {| SDK.apiKey := "env-key" |} (imagesRequest "a red fox" "1:1")
         (Throws (Error "429 Too Many Requests")))
      (events (GeminiService.generateImage Stub.rateLimited Stub.envKey
                 "a red fox" "1:1" "imagen-4.0-generate-001" None None 0))
   /\ includes (toLowerCase "429 Too Many Requests") "429" = true
   /\ completion (GeminiService.generateImage Stub.rateLimited Stub.envKey
                    "a red fox" "1:1" "imagen-4.0-generate-001" None None 0)
      = Throws (Error "error_quota"))
  /\ (In (GenerateContent {| SDK.apiKey := "env-key" |}
            (contentRequest [TextPart "a red fox"])
            (Throws (Error "RESOURCE_EXHAUSTED: Quota exceeded")))
         (events (GeminiService.generateImage Stub.rateLimited Stub.envKey
                    "a red fox" "1:1" "gemini-2.5-flash-image-preview" None None 0))
      /\ includes (toLowerCase "RESOURCE_EXHAUSTED: Quota exceeded") "quota" = true
      /\ completion (GeminiService.generateImage Stub.rateLimited Stub.envKey
                       "a red fox" "1:1" "gemini-2.5-flash-image-preview" None None 0)
         = Throws (Error "error_quota")).
Proof.
  split.
  - split; [left; reflexivity|]. split; [reflexivity|].
    apply (C4_backend_quota_error_fails_with_error_quota nat Stub.rateLimited
             Stub.envKey "a red fox" "1:1" "imagen-4.0-generate-001" None None 0
             (GenerateImages {| SDK.apiKey := "env-key" |}
                (imagesRequest "a red fox" "1:1")
                (Throws (Error "429 Too Many Requests")))
             "429 Too Many Requests").
    + left; reflexivity.
    + reflexivity.
    + reflexivity.
  - split; [left; reflexivity|]. split; [reflexivity|].
    apply (C4_backend_quota_error_fails_with_error_quota nat Stub.rateLimited
             Stub.envKey "a red fox" "1:1" "gemini-2.5-flash-image-preview" None None 0
             (GenerateContent {| SDK.apiKey := "env-key" |}
                (contentRequest [TextPart "a red fox"])
                (Throws (Error "RESOURCE_EXHAUSTED: Quota exceeded")))
             "RESOURCE_EXHAUSTED: Quota exceeded").
    + left; reflexivity.
    + reflexivity.
    + reflexivity.
Defined.

(** C5. A text-to-image call whose [generateImages] response reports at
    least one generated image returns the [imageBytes] of the first one. *)
Theorem C5_text_to_image_returns_first_image :
  forall (World : Type) (sdk : Backend World) (env : ProcessEnv)
         (prompt aspectRatio : string) (image : option ImageInput.t)
         (apiKey : option string) (w : World)
         (ai : GoogleGenAI) (params : GenerateImagesParameters)
         (response : GenerateImagesResponse)
         (first : GeneratedImage) (others : list GeneratedImage),
    In (GenerateImages ai params (Returns response))
       (events (GeminiService.generateImage sdk env prompt aspectRatio
                  "imagen-4.0-generate-001" image apiKey w)) ->
    generatedImages response = Some (first :: others) ->
    completion (GeminiService.generateImage sdk env prompt aspectRatio
                  "imagen-4.0-generate-001" image apiKey w)
    = Returns (imageBytes (SDK.image first)).
Proof.
  intros World sdk env prompt aspectRatio image apiKey w ai params response
         first others Hin Hsome.
  destruct (imagen_call_inv sdk env prompt aspectRatio image apiKey w _ _ _ Hin)
    as (_ & _ & Htry).
  apply generateImage_completion_returns.
  rewrite Htry. unfold firstImage. rewrite Hsome. reflexivity.
Qed.

(** The witness of C5: the red fox of the specification. *)
Lemma C5_witness :
  In (GenerateImages {| SDK.apiKey := "env-key" |} (imagesRequest "a red fox" "1:1")
        (Returns (Stub.imagesOf ["AAAA"])))
     (events (GeminiService.generateImage Stub.oneImage Stub.envKey
                "a red fox" "1:1" "imagen-4.0-generate-001" None None 0))
  /\ generatedImages (Stub.imagesOf ["AAAA"]) = Some [Stub.generated "AAAA"]
  /\ completion (GeminiService.generateImage Stub.oneImage Stub.envKey
                   "a red fox" "1:1" "imagen-4.0-generate-001" None None 0)
     = Returns "AAAA".
Proof.
  split; [left; reflexivity|]. split; [reflexivity|].
  apply (C5_text_to_image_returns_first_image nat Stub.oneImage Stub.envKey
           "a red fox" "1:1" None None 0
           {| SDK.apiKey := "env-key" |} (imagesRequest "a red fox" "1:1")
           (Stub.imagesOf ["AAAA"]) (Stub.generated "AAAA") []).
  - left; reflexivity.
  - reflexivity.
Defined.

(** C6, as stated, fails: the service scans the parts of the first
    candidate only.  Here the response carries a binary part, ["BBBB"], in
    its second candidate; the call does not return it. *)
Lemma C6_counterexample :
  In (GenerateContent {| SDK.apiKey := "env-key" |}
        (contentRequest
           [InlineDataPart {| SDK.data := "Rk9Y"; SDK.mimeType := "image/jpeg" |}])
        (Returns Stub.secondCandidateResponse))
     (events (GeminiService.generateImage Stub.secondCandidate Stub.envKey
                "" "1:1" "gemini-2.5-flash-image-preview" (Some Stub.fox) None 0))
  /\ (exists (cs : list Candidate) (c : Candidate) (ct : Content)
             (ps : list Part) (part : Part),
         candidates Stub.secondCandidateResponse = Some cs
         /\ In c cs /\ content c = Some ct /\ parts ct = Some ps /\ In part ps
         /\ SDK.inlineData part
            = Some {| SDK.data := "BBBB"; SDK.mimeType := "image/png" |})
  /\ completion (GeminiService.generateImage Stub.secondCandidate Stub.envKey
                   "" "1:1" "gemini-2.5-flash-image-preview" (Some Stub.fox) None 0)
     = Throws (Error "error_generic")
  /\ completion (GeminiService.generateImage Stub.secondCandidate Stub.envKey
                   "" "1:1" "gemini-2.5-flash-image-preview" (Some Stub.fox) None 0)
     <> Returns "BBBB".
Proof.
  split; [left; reflexivity|]. split.
  - exists (map Stub.candidate [[Stub.textOnly "here it is"]; [Stub.binary "BBBB"]]),
      (Stub.candidate [Stub.binary "BBBB"]),
      {| parts := Some [Stub.binary "BBBB"] |},
      [Stub.binary "BBBB"], (Stub.binary "BBBB").
    simpl. repeat split; auto.
  - split; [reflexivity|discriminate].
Qed.

(** C6, amended. An edit-variant call whose [generateContent] response has,
    among the content parts of its first candidate, at least one part that
    carries inline data returns the payload of the first such part of that
    candidate; the parts before it, which carry none, are skipped. *)
Theorem C6_edit_returns_first_inline_part_of_first_candidate :
  forall (World : Type) (sdk : Backend World) (env : ProcessEnv)
         (prompt aspectRatio : string) (image : option ImageInput.t)
         (apiKey : option string) (w : World)
         (ai : GoogleGenAI) (params : GenerateContentParameters)
         (response : GenerateContentResponse)
         (c : Candidate) (others : list Candidate) (ct : Content)
         (skipped later : list Part) (part : Part) (blob : Blob),
    In (GenerateContent ai params (Returns response))
       (events (GeminiService.generateImage sdk env prompt aspectRatio
                  "gemini-2.5-flash-image-preview" image apiKey w)) ->
    candidates response = Some (c :: others) ->
    content c = Some ct ->
    parts ct = Some (skipped ++ part :: later) ->
    Forall (fun p => SDK.inlineData p = None) skipped ->
    SDK.inlineData part = Some blob ->
    completion (GeminiService.generateImage sdk env prompt aspectRatio
                  "gemini-2.5-flash-image-preview" image apiKey w)
    = Returns (SDK.data blob).
Proof.
  intros World sdk env prompt aspectRatio image apiKey w ai params response
         c others ct skipped later part blob Hin Hcs Hc Hct Hskipped Hpart.
  destruct (edit_call_inv sdk env prompt aspectRatio image apiKey w _ _ _ Hin)
    as (_ & _ & _ & Htry).
  assert (Hparts : responseParts response = skipped ++ part :: later).
  { unfold responseParts. rewrite Hcs. simpl. rewrite Hc. simpl.
    rewrite Hct. reflexivity. }
  apply generateImage_completion_returns.
  rewrite Htry, Hparts, (scanParts_first _ _ Hskipped Hpart). reflexivity.
Qed.

(** The witness of C6: an image, an empty prompt, and a response whose
    first part is text and whose second part carries ["BBBB"]. *)
Lemma C6_witness :
  In (GenerateContent {| SDK.apiKey := "env-key" |}
        (contentRequest
           [InlineDataPart {| SDK.data := "Rk9Y"; SDK.mimeType := "image/jpeg" |}])
        (Returns Stub.secondPartResponse))
     (events (GeminiService.generateImage Stub.secondPart Stub.envKey
                "" "1:1" "gemini-2.5-flash-image-preview" (Some Stub.fox) None 0))
  /\ completion (GeminiService.generateImage Stub.secondPart Stub.envKey
                   "" "1:1" "gemini-2.5-flash-image-preview" (Some Stub.fox) None 0)
     = Returns "BBBB".
Proof.
  split; [left; reflexivity|].
  apply (C6_edit_returns_first_inline_part_of_first_candidate nat Stub.secondPart
           Stub.envKey "" "1:1" (Some Stub.fox) None 0
           {| SDK.apiKey := "env-key" |}
           (contentRequest
              [InlineDataPart {| SDK.data := "Rk9Y"; SDK.mimeType := "image/jpeg" |}])
           Stub.secondPartResponse
           (Stub.candidate [Stub.textOnly "here it is"; Stub.binary "BBBB"]) []
           {| parts := Some [Stub.textOnly "here it is"; Stub.binary "BBBB"] |}
           [Stub.textOnly "here it is"] [] (Stub.binary "BBBB")
           {| SDK.data := "BBBB"; SDK.mimeType := "image/png" |}).
  - left; reflexivity.
  - reflexivity.
  - reflexivity.
  - reflexivity.
  - repeat constructor.
  - reflexivity.
Defined.

(** C7. The request an edit-variant call sends to the backend carries the
    part list [imageParts ++ textParts]: [imageParts] is the one inline part
    with the payload and media type of the image input if an image input
    was supplied, and is empty if not; [textParts] is the one text part
    carrying the prompt if the prompt trims to a non-empty string, and is
    empty if not. *)
Theorem C7_edit_request_parts :
  forall (World : Type) (sdk : Backend World) (env : ProcessEnv)
         (prompt aspectRatio : string) (image : option ImageInput.t)
         (apiKey : option string) (w : World)
         (ai : GoogleGenAI) (params : GenerateContentParameters)
         (outcome : Completion GenerateContentResponse),
    In (GenerateContent ai params outcome)
       (events (GeminiService.generateImage sdk env prompt aspectRatio
                  "gemini-2.5-flash-image-preview" image apiKey w)) ->
    exists imageParts textParts : list RequestPart,
      request_parts (contents params) = imageParts ++ textParts
      /\ (forall img,
             image = Some img ->
             imageParts
             = [InlineDataPart {| SDK.data := ImageInput.data img;
                                  SDK.mimeType := ImageInput.mimeType img |}])
      /\ (image = None -> imageParts = [])
      /\ (trim prompt <> "" -> textParts = [TextPart prompt])
      /\ (trim prompt = "" -> textParts = []).
Proof.
  intros World sdk env prompt aspectRatio image apiKey w ai params outcome Hin.
  destruct (edit_call_inv sdk env prompt aspectRatio image apiKey w _ _ _ Hin)
    as (_ & _ & -> & _).
  exists (match image with
          | Some img =>
              [InlineDataPart {| SDK.data := ImageInput.data img;
                                 SDK.mimeType := ImageInput.mimeType img |}]
          | None => []
          end),
         (if truthy (trim prompt) then [TextPart prompt] else []).
  split; [|split; [|split; [|split]]].
  - simpl. unfold partsAtLine70, push.
    destruct (truthy (trim prompt)), image; simpl;
      rewrite ?app_nil_r; reflexivity.
  - intros img ->. reflexivity.
  - intros ->. reflexivity.
  - intros Hne. apply truthy_true_iff in Hne. rewrite Hne. reflexivity.
  - intros Heq. rewrite Heq. reflexivity.
Qed.

(** The witness of C7: an image and a prompt with surrounding blanks; the
    text part carries the prompt as it was given. *)
Lemma C7_witness :
  In (GenerateContent {| SDK.apiKey := "env-key" |}
        (contentRequest
           [InlineDataPart {| SDK.data := "Rk9Y"; SDK.mimeType := "image/jpeg" |};
            TextPart " make it red "])
        (Returns Stub.secondPartResponse))
     (events (GeminiService.generateImage Stub.secondPart Stub.envKey
                " make it red " "1:1" "gemini-2.5-flash-image-preview"
                (Some Stub.fox) None 0))
  /\ exists imageParts textParts : list RequestPart,
      [InlineDataPart {| SDK.data := "Rk9Y"; SDK.mimeType := "image/jpeg" |};
       TextPart " make it red "]
      = imageParts ++ textParts
      /\ (forall img,
             Some Stub.fox = Some img ->
             imageParts
             = [InlineDataPart {| SDK.data := ImageInput.data img;
                                  SDK.mimeType := ImageInput.mimeType img |}])
      /\ (Some Stub.fox = None -> imageParts = [])
      /\ (trim " make it red " <> "" -> textParts = [TextPart " make it red "])
      /\ (trim " make it red " = "" -> textParts = []).
Proof.
  split; [left; reflexivity|].
  apply (C7_edit_request_parts nat Stub.secondPart Stub.envKey
           " make it red " "1:1" (Some Stub.fox) None 0
           {| SDK.apiKey := "env-key" |}
           (contentRequest
              [InlineDataPart {| SDK.data := "Rk9Y"; SDK.mimeType := "image/jpeg" |};
               TextPart " make it red "])
           (Returns Stub.secondPartResponse)).
  left; reflexivity.
Defined.

(** C8. On the text-to-image branch the image argument has no influence:
    two calls that differ in the image input only run alike, with the same
    request sent to the backend, the same state of the remote service
    afterwards, and the same result. *)
Theorem C8_text_to_image_ignores_image_input :
  forall (World : Type) (sdk : Backend World) (env : ProcessEnv)
         (prompt aspectRatio : string) (image1 image2 : option ImageInput.t)
         (apiKey : option string) (w : World),
    GeminiService.generateImage sdk env prompt aspectRatio
      "imagen-4.0-generate-001" image1 apiKey w
    = GeminiService.generateImage sdk env prompt aspectRatio
        "imagen-4.0-generate-001" image2 apiKey w.
Proof.
  intros World sdk env prompt aspectRatio image1 image2 apiKey w.
  unfold GeminiService.generateImage, try_catch.
  destruct (GeminiService.getAiClient env apiKey) as [ai|e] eqn:Hai.
  - rewrite (tryBlock_imagen sdk env prompt aspectRatio image1 apiKey w Hai).
    rewrite (tryBlock_imagen sdk env prompt aspectRatio image2 apiKey w Hai).
    reflexivity.
  - rewrite (tryBlock_no_client sdk env prompt aspectRatio _ image1 apiKey w Hai).
    rewrite (tryBlock_no_client sdk env prompt aspectRatio _ image2 apiKey w Hai).
    reflexivity.
Qed.

(** C9. An empty credential override is treated as an absent one, in both
    revisions of the service: [getAiClient] resolves the same client, and
    [generateImage] runs alike.  With a default credential configured that
    client is bound to the default; only a present, non-empty override
    binds the client to the override. *)
Theorem C9_empty_override_is_absent_override :
  (forall env : ProcessEnv,
      GeminiService.getAiClient env (Some "") = GeminiService.getAiClient env None)
  /\ (forall (c : ascii) (k : string),
         GeminiService.getAiClient {| API_KEY := Some (String c k) |} (Some "")
         = Returns {| SDK.apiKey := String c k |})
  /\ (forall (env : ProcessEnv) (c : ascii) (k : string),
         GeminiService.getAiClient env (Some (String c k))
         = Returns {| SDK.apiKey := String c k |})
  /\ (forall (World : Type) (sdk : Backend World) (env : ProcessEnv)
             (prompt aspectRatio model : string) (image : option ImageInput.t)
             (w : World),
         GeminiService.generateImage sdk env prompt aspectRatio model image (Some "") w
         = GeminiService.generateImage sdk env prompt aspectRatio model image None w)
  /\ (forall defaultAi : GoogleGenAI,
         Part001.getAiClient defaultAi (Some "") = defaultAi
         /\ Part001.getAiClient defaultAi None = defaultAi)
  /\ (forall (defaultAi : GoogleGenAI) (c : ascii) (k : string),
         Part001.getAiClient defaultAi (Some (String c k))
         = {| SDK.apiKey := String c k |})
  /\ (forall (World : Type) (sdk : Backend World) (defaultAi : GoogleGenAI)
             (prompt aspectRatio model : string) (image : option ImageInput.t)
             (w : World),
         Part001.generateImage sdk defaultAi prompt aspectRatio model image (Some "") w
         = Part001.generateImage sdk defaultAi prompt aspectRatio model image None w).
Proof.
  split; [|split; [|split; [|split; [|split; [|split]]]]].
  - intros env. reflexivity.
  - intros c k. reflexivity.
  - intros env c k. reflexivity.
  - intros World sdk env prompt aspectRatio model image w.
    unfold GeminiService.generateImage, GeminiService.tryBlock.
    change (GeminiService.getAiClient env (Some ""))
      with (GeminiService.getAiClient env None).
    reflexivity.
  - intros defaultAi. split; reflexivity.
  - intros defaultAi c k. reflexivity.
  - intros World sdk defaultAi prompt aspectRatio model image w. reflexivity.
Qed.

(** With a default credential configured, both revisions resolve the same
    client for every override. *)
Lemma getAiClient_agree (env : ProcessEnv) (defaultAi : GoogleGenAI)
    (apiKey : option string) :
  Part001.load env = Returns defaultAi ->
  GeminiService.getAiClient env apiKey
  = Returns (Part001.getAiClient defaultAi apiKey).
Proof.
  unfold Part001.load, GeminiService.getAiClient, or_else.
  destruct env as [[[|c k]|]]; simpl; try discriminate.
  intros [= <-]. destruct apiKey as [[|c' k']|]; reflexivity.
Qed.

(** C10. When the process-wide default credential is set (and is the same
    when the module loads and when the call is made), the module of
    [src/unnamed/part_001] loads, and its [generateImage] and the one of
    [src/services/geminiService.ts] run alike on every input: the same
    result (payload or error code), the same backend calls, the same
    console output. *)
Theorem C10_revisions_agree_when_default_credential_set :
  forall env : ProcessEnv,
    truthy_opt (API_KEY env) = true ->
    exists defaultAi : GoogleGenAI,
      Part001.load env = Returns defaultAi
      /\ forall (World : Type) (sdk : Backend World)
                (prompt aspectRatio model : string) (image : option ImageInput.t)
                (apiKey : option string) (w : World),
          Part001.generateImage sdk defaultAi prompt aspectRatio model image apiKey w
          = GeminiService.generateImage sdk env prompt aspectRatio model image apiKey w.
Proof.
  intros env Hset.
  assert (Hload : exists defaultAi, Part001.load env = Returns defaultAi).
  { unfold Part001.load. destruct (API_KEY env) as [[|c k]|];
      simpl in Hset; try discriminate. eexists; reflexivity. }
  destruct Hload as [defaultAi Hload]. exists defaultAi. split; [exact Hload|].
  intros World sdk prompt aspectRatio model image apiKey w.
  unfold Part001.generateImage, GeminiService.generateImage.
  assert (Htry :
    GeminiService.tryBlock sdk env prompt aspectRatio model image apiKey w
    = Part001.tryBlock sdk (Part001.getAiClient defaultAi apiKey)
        prompt aspectRatio model image w).
  { unfold GeminiService.tryBlock.
    rewrite (getAiClient_agree env defaultAi apiKey Hload).
    rewrite bind_lift_returns. reflexivity. }
  unfold try_catch. rewrite Htry. reflexivity.
Qed.

(** The witness of C10: a configured default credential. *)
Lemma C10_witness :
  truthy_opt (API_KEY Stub.envKey) = true
  /\ exists defaultAi : GoogleGenAI,
      Part001.load Stub.envKey = Returns defaultAi
      /\ forall (World : Type) (sdk : Backend World)
                (prompt aspectRatio model : string) (image : option ImageInput.t)
                (apiKey : option string) (w : World),
          Part001.generateImage sdk defaultAi prompt aspectRatio model image apiKey w
          = GeminiService.generateImage sdk Stub.envKey prompt aspectRatio model
              image apiKey w.
Proof.
  split; [reflexivity|].
  apply (C10_revisions_agree_when_default_credential_set Stub.envKey).
  reflexivity.
Defined.

(** ** Further properties of the service *)

(** On every input the [try] block follows one of the five paths. *)
Lemma tryBlock_case :
  forall (World : Type) (sdk : Backend World) (env : ProcessEnv)
         (prompt aspectRatio model : string) (image : option ImageInput.t)
         (apiKey : option string) (w : World),
    TryCase sdk env prompt aspectRatio model image apiKey w
      (GeminiService.tryBlock sdk env prompt aspectRatio model image apiKey w).
Proof.
  intros World sdk env prompt aspectRatio model image apiKey w.
  destruct (GeminiService.getAiClient env apiKey) as [ai|e] eqn:Hai.
  2: { eapply NoClient; [exact Hai|]. apply tryBlock_no_client. exact Hai. }
  destruct (String.eqb_spec model "imagen-4.0-generate-001") as [->|Ha].
  - destruct (generateImages sdk ai (imagesRequest prompt aspectRatio) w)
      as [outcome w'] eqn:Hcall.
    eapply TextToImage; [exact Hai|reflexivity|exact Hcall|].
    rewrite (tryBlock_imagen sdk env prompt aspectRatio image apiKey w Hai).
    simpl. rewrite Hcall. reflexivity.
  - destruct (String.eqb_spec model "gemini-2.5-flash-image-preview") as [->|Hb].
    + destruct (list_eq_dec_nil (partsAtLine70 image prompt)) as [Hnil|Hcons].
      * eapply NothingToEdit; [exact Hai|reflexivity|exact Hnil|].
        apply (tryBlock_edit_empty sdk env prompt aspectRatio image apiKey w Hai Hnil).
      * destruct (generateContent sdk ai
                    (contentRequest (partsAtLine70 image prompt)) w)
          as [outcome w'] eqn:Hcall.
        eapply Edit; [exact Hai|reflexivity|exact Hcons|exact Hcall|].
        rewrite (tryBlock_edit sdk env prompt aspectRatio image apiKey w Hai Hcons).
        simpl. rewrite Hcall. reflexivity.
    + eapply UnknownModel; [exact Hai|exact Ha|exact Hb|].
      apply (tryBlock_other sdk env prompt aspectRatio image apiKey w Hai Ha Hb).
Qed.

(** The run of [generateImage] from the run of its [try] block. *)
Lemma generateImage_run :
  forall (World : Type) (sdk : Backend World) (env : ProcessEnv)
         (prompt aspectRatio model : string) (image : option ImageInput.t)
         (apiKey : option string) (w : World),
    GeminiService.generateImage sdk env prompt aspectRatio model image apiKey w
    = match completion
              (GeminiService.tryBlock sdk env prompt aspectRatio model image apiKey w)
      with
      | Returns _ =>
          GeminiService.tryBlock sdk env prompt aspectRatio model image apiKey w
      | Throws e =>
          {| completion :=
               completion
                 (GeminiService.catchBlock e
                    (world (GeminiService.tryBlock sdk env prompt aspectRatio
                              model image apiKey w)));
             world :=
               world (GeminiService.tryBlock sdk env prompt aspectRatio
                        model image apiKey w);
             events :=
               events (GeminiService.tryBlock sdk env prompt aspectRatio
                         model image apiKey w)
               ++ [ConsoleError "Error generating image with Gemini API:" e] |}
      end.
Proof.
  intros World sdk env prompt aspectRatio model image apiKey w.
  destruct (completion
              (GeminiService.tryBlock sdk env prompt aspectRatio model image apiKey w))
    as [payload|e] eqn:Htry.
  - exact (generateImage_returns _ _ _ _ _ _ _ _ Htry).
  - exact (generateImage_throws _ _ _ _ _ _ _ _ Htry).
Qed.

Lemma catchBlock_api_key :
  forall (World : Type) (message : string) (w : World),
    includes (toLowerCase message) "429"
    || includes (toLowerCase message) "quota"
    || includes (toLowerCase message) "resource_exhausted" = false ->
    includes (toLowerCase message) "api" && includes (toLowerCase message) "key"
    = true ->
    completion (GeminiService.catchBlock (Error message) w)
    = Throws (Error "error_api_key").
Proof.
  intros World message w Hquota Hkey.
  unfold GeminiService.catchBlock, bind, console_error, throw; simpl.
  rewrite Hquota, Hkey. reflexivity.
Qed.

Lemma catchBlock_generic :
  forall (World : Type) (message : string) (w : World),
    includes (toLowerCase message) "429"
    || includes (toLowerCase message) "quota"
    || includes (toLowerCase message) "resource_exhausted" = false ->
    includes (toLowerCase message) "api" && includes (toLowerCase message) "key"
    = false ->
    completion (GeminiService.catchBlock (Error message) w)
    = Throws (Error "error_generic").
Proof.
  intros World message w Hquota Hkey.
  unfold GeminiService.catchBlock, bind, console_error, throw; simpl.
  rewrite Hquota, Hkey. reflexivity.
Qed.

(** X1. An invocation returns a payload or rejects with an [Error] whose
    message is [error_quota], [error_api_key] or [error_generic]: nothing a
    backend throws reaches the caller as it was thrown, and neither do the
    codes [error_no_images_returned] and
    [error_prompt_or_image_required_for_edit]. *)
Theorem X1_generateImage_returns_or_rejects_with_one_of_three_codes :
  forall (World : Type) (sdk : Backend World) (env : ProcessEnv)
         (prompt aspectRatio model : string) (image : option ImageInput.t)
         (apiKey : option string) (w : World),
    (exists payload,
        completion (GeminiService.generateImage sdk env prompt aspectRatio
                      model image apiKey w) = Returns payload)
    \/ completion (GeminiService.generateImage sdk env prompt aspectRatio
                     model image apiKey w) = Throws (Error "error_quota")
    \/ completion (GeminiService.generateImage sdk env prompt aspectRatio
                     model image apiKey w) = Throws (Error "error_api_key")
    \/ completion (GeminiService.generateImage sdk env prompt aspectRatio
                     model image apiKey w) = Throws (Error "error_generic").
Proof.
  intros World sdk env prompt aspectRatio model image apiKey w.
  rewrite generateImage_run.
  destruct (completion
              (GeminiService.tryBlock sdk env prompt aspectRatio model image apiKey w))
    as [payload|e] eqn:Htry.
  - left. exists payload. exact Htry.
  - right. simpl. apply catchBlock_codes.
Qed.

(** X2. If the backend call of an invocation throws an [Error] whose
    lower-cased message contains both ["api"] and ["key"] and none of the
    quota markers, the invocation fails with [error_api_key]. *)
Theorem X2_backend_api_key_error_fails_with_error_api_key :
  forall (World : Type) (sdk : Backend World) (env : ProcessEnv)
         (prompt aspectRatio model : string) (image : option ImageInput.t)
         (apiKey : option string) (w : World) (ev : Event) (message : string),
    In ev (events (GeminiService.generateImage sdk env prompt aspectRatio
                     model image apiKey w)) ->
    backendThrew ev = Some (Error message) ->
    includes (toLowerCase message) "429"
    || includes (toLowerCase message) "quota"
    || includes (toLowerCase message) "resource_exhausted" = false ->
    includes (toLowerCase message) "api" && includes (toLowerCase message) "key"
    = true ->
    completion (GeminiService.generateImage sdk env prompt aspectRatio
                  model image apiKey w)
    = Throws (Error "error_api_key").
Proof.
  intros World sdk env prompt aspectRatio model image apiKey w ev message
         Hin Hthrew Hquota Hkey.
  pose proof (backend_threw_inv sdk env prompt aspectRatio model image apiKey w
                ev Hin Hthrew) as Htry.
  rewrite (generateImage_completion_throws _ _ _ _ _ _ _ _ Htry).
  apply catchBlock_api_key; assumption.
Qed.

(** The witness of X2: the backend rejects the credential. *)
Lemma X2_witness :
  In (GenerateImages {| SDK.apiKey := "env-key" |} (imagesRequest "a red fox" "1:1")
        (Throws (Error "API key not valid. Please pass a valid API key.")))
     (events (GeminiService.generateImage Scenario.badKey Stub.envKey
                "a red fox" "1:1" "imagen-4.0-generate-001" None None 0))
  /\ completion (GeminiService.generateImage Scenario.badKey Stub.envKey
                   "a red fox" "1:1" "imagen-4.0-generate-001" None None 0)
     = Throws (Error "error_api_key").
Proof.
  split; [left; reflexivity|].
  apply (X2_backend_api_key_error_fails_with_error_api_key nat Scenario.badKey
           Stub.envKey "a red fox" "1:1" "imagen-4.0-generate-001" None None 0
           (GenerateImages {| SDK.apiKey := "env-key" |}
              (imagesRequest "a red fox" "1:1")
              (Throws (Error "API key not valid. Please pass a valid API key.")))
           "API key not valid. Please pass a valid API key.").
  - left; reflexivity.
  - reflexivity.
  - reflexivity.
  - reflexivity.
Defined.

(** X3. If the backend call of an invocation throws an [Error] whose
    lower-cased message contains none of the quota markers and lacks ["api"]
    or ["key"], the invocation fails with [error_generic]. *)
Theorem X3_other_backend_error_fails_with_error_generic :
  forall (World : Type) (sdk : Backend World) (env : ProcessEnv)
         (prompt aspectRatio model : string) (image : option ImageInput.t)
         (apiKey : option string) (w : World) (ev : Event) (message : string),
    In ev (events (GeminiService.generateImage sdk env prompt aspectRatio
                     model image apiKey w)) ->
    backendThrew ev = Some (Error message) ->
    includes (toLowerCase message) "429"
    || includes (toLowerCase message) "quota"
    || includes (toLowerCase message) "resource_exhausted" = false ->
    includes (toLowerCase message) "api" && includes (toLowerCase message) "key"
    = false ->
    completion (GeminiService.generateImage sdk env prompt aspectRatio
                  model image apiKey w)
    = Throws (Error "error_generic").
Proof.
  intros World sdk env prompt aspectRatio model image apiKey w ev message
         Hin Hthrew Hquota Hkey.
  pose proof (backend_threw_inv sdk env prompt aspectRatio model image apiKey w
                ev Hin Hthrew) as Htry.
  rewrite (generateImage_completion_throws _ _ _ _ _ _ _ _ Htry).
  apply catchBlock_generic; assumption.
Qed.

(** The witness of X3: the backend cannot be reached. *)
Lemma X3_witness :
  In (GenerateContent {| SDK.apiKey := "k" |}
        (contentRequest [TextPart "make it red"])
        (Throws (Error "fetch failed")))
     (events (GeminiService.generateImage Scenario.offline Stub.noEnv
                "make it red" "1:1" "gemini-2.5-flash-image-preview" None (Some "k") 0))
  /\ completion (GeminiService.generateImage Scenario.offline Stub.noEnv
                   "make it red" "1:1" "gemini-2.5-flash-image-preview" None (Some "k") 0)
     = Throws (Error "error_generic").
Proof.
  split; [left; reflexivity|].
  apply (X3_other_backend_error_fails_with_error_generic nat Scenario.offline
           Stub.noEnv "make it red" "1:1" "gemini-2.5-flash-image-preview"
           None (Some "k") 0
           (GenerateContent {| SDK.apiKey := "k" |}
              (contentRequest [TextPart "make it red"])
              (Throws (Error "fetch failed")))
           "fetch failed").
  - left; reflexivity.
  - reflexivity.
  - reflexivity.
  - reflexivity.
Defined.

(** X4. If the backend call of an invocation throws a value that is not an
    [Error], the invocation fails with [error_generic], whatever the value
    says: the message tests apply to [Error] objects only. *)
Theorem X4_non_error_rejection_fails_with_error_generic :
  forall (World : Type) (sdk : Backend World) (env : ProcessEnv)
         (prompt aspectRatio model : string) (image : option ImageInput.t)
         (apiKey : option string) (w : World) (ev : Event) (value : string),
    In ev (events (GeminiService.generateImage sdk env prompt aspectRatio
                     model image apiKey w)) ->
    backendThrew ev = Some (NonError value) ->
    completion (GeminiService.generateImage sdk env prompt aspectRatio
                  model image apiKey w)
    = Throws (Error "error_generic").
Proof.
  intros World sdk env prompt aspectRatio model image apiKey w ev value
         Hin Hthrew.
  pose proof (backend_threw_inv sdk env prompt aspectRatio model image apiKey w
                ev Hin Hthrew) as Htry.
  rewrite (generateImage_completion_throws _ _ _ _ _ _ _ _ Htry).
  reflexivity.
Qed.

(** The witness of X4: a rejection with the string ["429 quota exceeded"]
    is not a quota error. *)
Lemma X4_witness :
  In (GenerateImages {| SDK.apiKey := "env-key" |} (imagesRequest "a red fox" "1:1")
        (Throws (NonError "429 quota exceeded")))
     (events (GeminiService.generateImage Scenario.rejectsWithString Stub.envKey
                "a red fox" "1:1" "imagen-4.0-generate-001" None None 0))
  /\ completion (GeminiService.generateImage Scenario.rejectsWithString Stub.envKey
                   "a red fox" "1:1" "imagen-4.0-generate-001" None None 0)
     = Throws (Error "error_generic").
Proof.
  split; [left; reflexivity|].
  apply (X4_non_error_rejection_fails_with_error_generic nat
           Scenario.rejectsWithString Stub.envKey
           "a red fox" "1:1" "imagen-4.0-generate-001" None None 0
           (GenerateImages {| SDK.apiKey := "env-key" |}
              (imagesRequest "a red fox" "1:1")
              (Throws (NonError "429 quota exceeded")))
           "429 quota exceeded").
  - left; reflexivity.
  - reflexivity.
Defined.

(** The list of parts is empty exactly when there is neither an image nor a
    prompt that trims to something. *)
Lemma partsAtLine70_nil_iff (image : option ImageInput.t) (prompt : string) :
  partsAtLine70 image prompt = [] <-> image = None /\ trim prompt = "".
Proof.
  unfold partsAtLine70, push.
  destruct image as [img|], (trim prompt) as [|c rest]; simpl;
    split; try discriminate; try tauto; intros [H1 H2]; discriminate.
Qed.

(** A client is resolved exactly when the override or the default is a
    non-empty string, and it is bound to the override first. *)
Lemma getAiClient_returns_iff (env : ProcessEnv) (apiKey : option string) :
  (exists ai, GeminiService.getAiClient env apiKey = Returns ai)
  <-> truthy_opt apiKey = true \/ truthy_opt (API_KEY env) = true.
Proof.
  unfold GeminiService.getAiClient, or_else.
  destruct apiKey as [[|c k]|], env as [[[|c' k']|]]; simpl;
    split; intros H;
    try (destruct H as [ai H]; discriminate);
    try (destruct H as [H|H]; discriminate);
    try (eexists; reflexivity); auto.
Qed.

Lemma getAiClient_returns_inv (env : ProcessEnv) (apiKey : option string)
    (ai : GoogleGenAI) :
  GeminiService.getAiClient env apiKey = Returns ai ->
  SDK.apiKey ai <> ""
  /\ (truthy_opt apiKey = true -> apiKey = Some (SDK.apiKey ai))
  /\ (truthy_opt apiKey = false -> API_KEY env = Some (SDK.apiKey ai)).
Proof.
  unfold GeminiService.getAiClient, or_else.
  destruct apiKey as [[|c k]|], env as [[[|c' k']|]]; simpl;
    intros H; try discriminate; injection H as <-; simpl;
    repeat split; try discriminate; auto.
Qed.

(** X5. An invocation makes at most one backend call.  If it makes none,
    the remote service is left as it was.  A text-to-image call can only
    call [generateImages], with the prompt and the aspect ratio as given,
    one image and PNG output; an edit call can only call [generateContent],
    with a non-empty part list and the image and text modalities. *)
Theorem X5_at_most_one_backend_call :
  forall (World : Type) (sdk : Backend World) (env : ProcessEnv)
         (prompt aspectRatio model : string) (image : option ImageInput.t)
         (apiKey : option string) (w : World),
    (backendCalls
       (events (GeminiService.generateImage sdk env prompt aspectRatio
                  model image apiKey w)) = []
     /\ world (GeminiService.generateImage sdk env prompt aspectRatio
                 model image apiKey w) = w)
    \/ (model = "imagen-4.0-generate-001"
        /\ exists ai outcome,
            backendCalls
              (events (GeminiService.generateImage sdk env prompt aspectRatio
                         model image apiKey w))
            = [GenerateImages ai
                 {| images_model := "imagen-4.0-generate-001";
                    images_prompt := prompt;
                    images_config :=
                      {| numberOfImages := 1;
                         outputMimeType := "image/png";
                         SDK.aspectRatio := aspectRatio |} |}
                 outcome])
    \/ (model = "gemini-2.5-flash-image-preview"
        /\ exists ai requestParts outcome,
            requestParts <> []
            /\ backendCalls
                 (events (GeminiService.generateImage sdk env prompt aspectRatio
                            model image apiKey w))
               = [GenerateContent ai
                    {| content_model := "gemini-2.5-flash-image-preview";
                       contents := {| request_parts := requestParts |};
                       content_config := {| responseModalities := [IMAGE; TEXT] |} |}
                    outcome]).
Proof.
  intros World sdk env prompt aspectRatio model image apiKey w.
  rewrite generateImage_backendCalls, generateImage_run.
  destruct (tryBlock_case World sdk env prompt aspectRatio model image apiKey w)
    as [e Hai Htried|ai outcome w' Hai Hmodel Hcall Htried
       |ai Hai Hmodel Hnil Htried|ai outcome w' Hai Hmodel Hcons Hcall Htried
       |ai Hai Ha Hb Htried];
    rewrite Htried; simpl.
  - left. split; reflexivity.
  - right; left. split; [exact Hmodel|]. exists ai, outcome. reflexivity.
  - left. split; reflexivity.
  - right; right. split; [exact Hmodel|].
    exists ai, (partsAtLine70 image prompt), outcome. split; [exact Hcons|reflexivity].
  - left. split; reflexivity.
Qed.

(** X6. An invocation contacts the backend exactly when a credential is
    available (a non-empty override or a non-empty default) and either the
    model tag is the text-to-image one, whatever the prompt, or it is the
    edit one and there is an image input or a prompt that does not trim to
    the empty string. *)
Theorem X6_backend_contacted_iff :
  forall (World : Type) (sdk : Backend World) (env : ProcessEnv)
         (prompt aspectRatio model : string) (image : option ImageInput.t)
         (apiKey : option string) (w : World),
    backendCalls
      (events (GeminiService.generateImage sdk env prompt aspectRatio
                 model image apiKey w)) <> []
    <-> (truthy_opt apiKey = true \/ truthy_opt (API_KEY env) = true)
        /\ (model = "imagen-4.0-generate-001"
            \/ (model = "gemini-2.5-flash-image-preview"
                /\ (image <> None \/ trim prompt <> ""))).
Proof.
  intros World sdk env prompt aspectRatio model image apiKey w.
  rewrite generateImage_backendCalls, <- getAiClient_returns_iff.
  destruct (tryBlock_case World sdk env prompt aspectRatio model image apiKey w)
    as [e Hai Htried|ai outcome w' Hai Hmodel Hcall Htried
       |ai Hai Hmodel Hnil Htried|ai outcome w' Hai Hmodel Hcons Hcall Htried
       |ai Hai Ha Hb Htried];
    rewrite Htried; simpl; split.
  - intros H; exfalso; apply H; reflexivity.
  - intros [[ai H] _]. congruence.
  - intros _. split; [exists ai; exact Hai|left; exact Hmodel].
  - discriminate.
  - intros H; exfalso; apply H; reflexivity.
  - intros [_ [H|[_ H]]].
    + subst model. discriminate.
    + apply partsAtLine70_nil_iff in Hnil. destruct Hnil as [Hi Hp].
      destruct H; contradiction.
  - intros _. split; [exists ai; exact Hai|right]. split; [exact Hmodel|].
    destruct image as [img|]; [left; discriminate|right].
    intros Hp. apply Hcons. apply partsAtLine70_nil_iff. auto.
  - discriminate.
  - intros H; exfalso; apply H; reflexivity.
  - intros [_ [H|[H _]]]; contradiction.
Qed.

(** X7. Every backend call of an invocation is made with a client bound to
    a non-empty credential: the override when the override is a non-empty
    string, the process-wide default otherwise. *)
Theorem X7_backend_call_uses_override_then_default :
  forall (World : Type) (sdk : Backend World) (env : ProcessEnv)
         (prompt aspectRatio model : string) (image : option ImageInput.t)
         (apiKey : option string) (w : World) (ev : Event) (ai : GoogleGenAI),
    In ev (events (GeminiService.generateImage sdk env prompt aspectRatio
                     model image apiKey w)) ->
    callClient ev = Some ai ->
    SDK.apiKey ai <> ""
    /\ (truthy_opt apiKey = true -> apiKey = Some (SDK.apiKey ai))
    /\ (truthy_opt apiKey = false -> API_KEY env = Some (SDK.apiKey ai)).
Proof.
  intros World sdk env prompt aspectRatio model image apiKey w ev ai Hin Hclient.
  apply generateImage_backend_event in Hin;
    [|destruct ev; simpl in *; congruence].
  destruct (tryBlock_case World sdk env prompt aspectRatio model image apiKey w)
    as [e Hai Htried|ai' outcome w' Hai Hmodel Hcall Htried
       |ai' Hai Hmodel Hnil Htried|ai' outcome w' Hai Hmodel Hcons Hcall Htried
       |ai' Hai Ha Hb Htried];
    rewrite Htried in Hin; simpl in Hin;
    try (destruct Hin as [<-|[]]; injection Hclient as <-;
         exact (getAiClient_returns_inv env apiKey _ Hai));
    destruct Hin.
Qed.

(** The witness of X7: the override wins over the default. *)
Lemma X7_witness :
  In (GenerateImages {| SDK.apiKey := "mine" |} (imagesRequest "a red fox" "1:1")
        (Returns (Stub.imagesOf ["AAAA"])))
     (events (GeminiService.generateImage Stub.oneImage Stub.envKey
                "a red fox" "1:1" "imagen-4.0-generate-001" None (Some "mine") 0))
  /\ "mine" <> ""
  /\ (truthy_opt (Some "mine") = true -> Some "mine" = Some "mine")
  /\ (truthy_opt (Some "mine") = false -> API_KEY Stub.envKey = Some "mine").
Proof.
  split; [left; reflexivity|].
  apply (X7_backend_call_uses_override_then_default nat Stub.oneImage Stub.envKey
           "a red fox" "1:1" "imagen-4.0-generate-001" None (Some "mine") 0
           (GenerateImages {| SDK.apiKey := "mine" |}
              (imagesRequest "a red fox" "1:1")
              (Returns (Stub.imagesOf ["AAAA"])))
           {| SDK.apiKey := "mine" |}).
  - left; reflexivity.
  - reflexivity.
Defined.

(** X8. With a non-empty credential override the process environment has
    no influence on an invocation. *)
Theorem X8_environment_ignored_under_override :
  forall (World : Type) (sdk : Backend World) (env1 env2 : ProcessEnv)
         (prompt aspectRatio model : string) (image : option ImageInput.t)
         (c : ascii) (k : string) (w : World),
    GeminiService.generateImage sdk env1 prompt aspectRatio model image
      (Some (String c k)) w
    = GeminiService.generateImage sdk env2 prompt aspectRatio model image
        (Some (String c k)) w.
Proof.
  intros World sdk env1 env2 prompt aspectRatio model image c k w.
  unfold GeminiService.generateImage, GeminiService.tryBlock.
  change (GeminiService.getAiClient env1 (Some (String c k)))
    with (GeminiService.getAiClient env2 (Some (String c k))).
  reflexivity.
Qed.

(** A payload found by the scan is that of a part with inline data before
    which no part has any. *)
Lemma scanParts_some_inv (ps : list Part) (payload : string) :
  scanParts ps = Some payload ->
  exists skipped part blob later,
    ps = skipped ++ part :: later
    /\ Forall (fun p => SDK.inlineData p = None) skipped
    /\ SDK.inlineData part = Some blob
    /\ payload = SDK.data blob.
Proof.
  induction ps as [|p rest IH]; simpl; [discriminate|].
  destruct (SDK.inlineData p) as [blob|] eqn:Hp.
  - intros [= <-]. exists [], p, blob, rest. auto.
  - intros H. destruct (IH H) as (skipped & part & blob & later & -> & Hs & Hb & ->).
    exists (p :: skipped), part, blob, later. auto.
Qed.

Ltac project := cbn [completion world events orNoImages app].

Ltac split_cases H :=
  repeat match type of H with
         | _ \/ _ => destruct H as [H|H]
         | False => destruct H
         end.

(** X9. An invocation that returns a payload made exactly one backend call,
    that call returned a response, nothing was written to the console, and
    the payload comes from the response: the bytes of the first generated
    image on the text-to-image tag, the data of the first part with inline
    data among the parts of the first candidate on the edit tag.  No other
    model tag ever yields a payload. *)
Theorem X9_returned_payload_comes_from_the_backend :
  forall (World : Type) (sdk : Backend World) (env : ProcessEnv)
         (prompt aspectRatio model : string) (image : option ImageInput.t)
         (apiKey : option string) (w : World) (payload : string),
    completion (GeminiService.generateImage sdk env prompt aspectRatio
                  model image apiKey w) = Returns payload ->
    (model = "imagen-4.0-generate-001"
     /\ exists ai params response first others,
         events (GeminiService.generateImage sdk env prompt aspectRatio
                   model image apiKey w)
         = [GenerateImages ai params (Returns response)]
         /\ generatedImages response = Some (first :: others)
         /\ payload = imageBytes (SDK.image first))
    \/ (model = "gemini-2.5-flash-image-preview"
        /\ exists ai params response skipped part blob later,
            events (GeminiService.generateImage sdk env prompt aspectRatio
                      model image apiKey w)
            = [GenerateContent ai params (Returns response)]
            /\ responseParts response = skipped ++ part :: later
            /\ Forall (fun p => SDK.inlineData p = None) skipped
            /\ SDK.inlineData part = Some blob
            /\ payload = SDK.data blob).
Proof.
  intros World sdk env prompt aspectRatio model image apiKey w payload.
  rewrite generateImage_run.
  destruct (tryBlock_case World sdk env prompt aspectRatio model image apiKey w)
    as [e Hai Htried|ai outcome w' Hai Hmodel Hcall Htried
       |ai Hai Hmodel Hnil Htried|ai outcome w' Hai Hmodel Hcons Hcall Htried
       |ai Hai Ha Hb Htried];
    rewrite Htried; project.
  - destruct (catchBlock_codes e w) as [H|[H|H]]; rewrite H; discriminate.
  - destruct outcome as [response|t]; project.
    + unfold firstImage.
      destruct (generatedImages response) as [[|first others]|] eqn:Himages;
        project.
      * rewrite catchBlock_no_images. discriminate.
      * intros [= <-]. left. split; [exact Hmodel|].
        exists ai, (imagesRequest prompt aspectRatio), response, first, others. auto.
      * rewrite catchBlock_no_images. discriminate.
    + destruct (catchBlock_codes t w') as [H|[H|H]]; rewrite H; discriminate.
  - destruct (catchBlock_codes (Error "error_prompt_or_image_required_for_edit") w)
      as [H|[H|H]]; rewrite H; discriminate.
  - destruct outcome as [response|t]; project.
    + destruct (scanParts (responseParts response)) as [found|] eqn:Hscan;
        project.
      * intros [= <-]. right. split; [exact Hmodel|].
        destruct (scanParts_some_inv _ _ Hscan)
          as (skipped & part & blob & later & Hparts & Hskipped & Hblob & Hdata).
        exists ai, (contentRequest (partsAtLine70 image prompt)), response,
          skipped, part, blob, later. auto.
      * rewrite catchBlock_no_images. discriminate.
    + destruct (catchBlock_codes t w') as [H|[H|H]]; rewrite H; discriminate.
  - rewrite catchBlock_no_images. discriminate.
Qed.

(** The witness of X9: the red fox. *)
Lemma X9_witness :
  completion (GeminiService.generateImage Stub.oneImage Stub.envKey
                "a red fox" "1:1" "imagen-4.0-generate-001" None None 0)
  = Returns "AAAA"
  /\ (("imagen-4.0-generate-001" = "imagen-4.0-generate-001"
       /\ exists ai params response first others,
           events (GeminiService.generateImage Stub.oneImage Stub.envKey
                     "a red fox" "1:1" "imagen-4.0-generate-001" None None 0)
           = [GenerateImages ai params (Returns response)]
           /\ generatedImages response = Some (first :: others)
           /\ "AAAA" = imageBytes (SDK.image first))
      \/ ("imagen-4.0-generate-001" = "gemini-2.5-flash-image-preview"
          /\ exists ai params response skipped part blob later,
              events (GeminiService.generateImage Stub.oneImage Stub.envKey
                        "a red fox" "1:1" "imagen-4.0-generate-001" None None 0)
              = [GenerateContent ai params (Returns response)]
              /\ responseParts response = skipped ++ part :: later
              /\ Forall (fun p => SDK.inlineData p = None) skipped
              /\ SDK.inlineData part = Some blob
              /\ "AAAA" = SDK.data blob)).
Proof.
  split; [reflexivity|].
  apply (X9_returned_payload_comes_from_the_backend nat Stub.oneImage Stub.envKey
           "a red fox" "1:1" "imagen-4.0-generate-001" None None 0 "AAAA").
  reflexivity.
Defined.

(** X10. When the backend call of an invocation throws, the invocation
    does exactly two things: the call, and one [console.error] entry that
    carries the value the backend threw, as it was thrown. *)
Theorem X10_backend_error_is_logged_as_thrown :
  forall (World : Type) (sdk : Backend World) (env : ProcessEnv)
         (prompt aspectRatio model : string) (image : option ImageInput.t)
         (apiKey : option string) (w : World) (ev : Event) (t : Thrown),
    In ev (events (GeminiService.generateImage sdk env prompt aspectRatio
                     model image apiKey w)) ->
    backendThrew ev = Some t ->
    events (GeminiService.generateImage sdk env prompt aspectRatio
              model image apiKey w)
    = [ev; ConsoleError "Error generating image with Gemini API:" t].
Proof.
  intros World sdk env prompt aspectRatio model image apiKey w ev t.
  rewrite generateImage_run.
  destruct (tryBlock_case World sdk env prompt aspectRatio model image apiKey w)
    as [e Hai Htried|ai outcome w' Hai Hmodel Hcall Htried
       |ai Hai Hmodel Hnil Htried|ai outcome w' Hai Hmodel Hcons Hcall Htried
       |ai Hai Ha Hb Htried];
    rewrite Htried; simpl.
  - intros Hin Hthrew. split_cases Hin. subst ev. discriminate.
  - destruct outcome as [response|t']; simpl.
    + destruct (firstImage response); simpl;
        intros Hin Hthrew; split_cases Hin; subst ev; discriminate.
    + intros Hin Hthrew. split_cases Hin; subst ev; [|discriminate].
      injection Hthrew as <-. reflexivity.
  - intros Hin Hthrew. split_cases Hin. subst ev. discriminate.
  - destruct outcome as [response|t']; simpl.
    + destruct (scanParts (responseParts response)); simpl;
        intros Hin Hthrew; split_cases Hin; subst ev; discriminate.
    + intros Hin Hthrew. split_cases Hin; subst ev; [|discriminate].
      injection Hthrew as <-. reflexivity.
  - intros Hin Hthrew. split_cases Hin. subst ev. discriminate.
Qed.

(** The witness of X10: the message of the backend reaches the console,
    not the caller. *)
Lemma X10_witness :
  events (GeminiService.generateImage Scenario.offline Stub.envKey
            "a red fox" "1:1" "imagen-4.0-generate-001" None None 0)
  = [GenerateImages {| SDK.apiKey := "env-key" |} (imagesRequest "a red fox" "1:1")
       (Throws (Error "fetch failed"));
     ConsoleError "Error generating image with Gemini API:" (Error "fetch failed")].
Proof.
  apply (X10_backend_error_is_logged_as_thrown nat Scenario.offline Stub.envKey
           "a red fox" "1:1" "imagen-4.0-generate-001" None None 0
           (GenerateImages {| SDK.apiKey := "env-key" |}
              (imagesRequest "a red fox" "1:1") (Throws (Error "fetch failed")))
           (Error "fetch failed")).
  - left; reflexivity.
  - reflexivity.
Defined.

(** X11. An invocation writes to the console exactly when it fails: a call
    that returns emits its backend call and nothing else; a call that fails
    emits its backend call, if it made one, followed by exactly one
    [console.error] entry. *)
Theorem X11_console_entry_iff_failure :
  forall (World : Type) (sdk : Backend World) (env : ProcessEnv)
         (prompt aspectRatio model : string) (image : option ImageInput.t)
         (apiKey : option string) (w : World),
    (exists payload,
        completion (GeminiService.generateImage sdk env prompt aspectRatio
                      model image apiKey w) = Returns payload
        /\ events (GeminiService.generateImage sdk env prompt aspectRatio
                     model image apiKey w)
           = backendCalls
               (events (GeminiService.generateImage sdk env prompt aspectRatio
                          model image apiKey w)))
    \/ (exists code caught,
           completion (GeminiService.generateImage sdk env prompt aspectRatio
                         model image apiKey w) = Throws (Error code)
           /\ events (GeminiService.generateImage sdk env prompt aspectRatio
                        model image apiKey w)
              = backendCalls
                  (events (GeminiService.generateImage sdk env prompt aspectRatio
                             model image apiKey w))
                ++ [ConsoleError "Error generating image with Gemini API:" caught]).
Proof.
  intros World sdk env prompt aspectRatio model image apiKey w.
  assert (Hcode : forall (e : Thrown) (w0 : World),
             exists code,
               completion (GeminiService.catchBlock e w0) = Throws (Error code)).
  { intros e w0. destruct (catchBlock_codes e w0) as [H|[H|H]];
      rewrite H; eexists; reflexivity. }
  rewrite generateImage_run.
  destruct (tryBlock_case World sdk env prompt aspectRatio model image apiKey w)
    as [e Hai Htried|ai outcome w' Hai Hmodel Hcall Htried
       |ai Hai Hmodel Hnil Htried|ai outcome w' Hai Hmodel Hcons Hcall Htried
       |ai Hai Ha Hb Htried];
    rewrite Htried; project.
  - right. destruct (Hcode e w) as [code H]. exists code, e.
    split; [exact H|reflexivity].
  - destruct outcome as [response|t]; project.
    + destruct (firstImage response) as [payload|]; project.
      * left. exists payload. split; reflexivity.
      * right. destruct (Hcode (Error "error_no_images_returned") w') as [code H].
        exists code, (Error "error_no_images_returned").
        split; [exact H|reflexivity].
    + right. destruct (Hcode t w') as [code H]. exists code, t.
      split; [exact H|reflexivity].
  - right.
    destruct (Hcode (Error "error_prompt_or_image_required_for_edit") w) as [code H].
    exists code, (Error "error_prompt_or_image_required_for_edit").
    split; [exact H|reflexivity].
  - destruct outcome as [response|t]; project.
    + destruct (scanParts (responseParts response)) as [payload|]; project.
      * left. exists payload. split; reflexivity.
      * right. destruct (Hcode (Error "error_no_images_returned") w') as [code H].
        exists code, (Error "error_no_images_returned").
        split; [exact H|reflexivity].
    + right. destruct (Hcode t w') as [code H]. exists code, t.
      split; [exact H|reflexivity].
  - right. destruct (Hcode (Error "error_no_images_returned") w) as [code H].
    exists code, (Error "error_no_images_returned").
    split; [exact H|reflexivity].
Qed.

(** ** The earlier revision, [src/unnamed/part_001] *)

(** In a module that loaded, the earlier revision runs as the later one. *)
Lemma part001_generateImage_eq :
  forall (env : ProcessEnv) (defaultAi : GoogleGenAI),
    Part001.load env = Returns defaultAi ->
    forall (World : Type) (sdk : Backend World)
           (prompt aspectRatio model : string) (image : option ImageInput.t)
           (apiKey : option string) (w : World),
      Part001.generateImage sdk defaultAi prompt aspectRatio model image apiKey w
      = GeminiService.generateImage sdk env prompt aspectRatio model image apiKey w.
Proof.
  intros env defaultAi Hload World sdk prompt aspectRatio model image apiKey w.
  unfold Part001.generateImage, GeminiService.generateImage, try_catch.
  replace (GeminiService.tryBlock sdk env prompt aspectRatio model image apiKey w)
    with (Part001.tryBlock sdk (Part001.getAiClient defaultAi apiKey)
            prompt aspectRatio model image w).
  - reflexivity.
  - unfold GeminiService.tryBlock.
    rewrite (getAiClient_agree env defaultAi apiKey Hload), bind_lift_returns.
    reflexivity.
Qed.

(** X12. The module of the earlier revision loads exactly when the later
    revision can resolve a client without an override, and its default
    client is that client; it fails to load, with the message
    ["API_KEY environment variable not set."], exactly when the default
    credential is unset or empty. *)
Theorem X12_part001_loads_iff_default_credential :
  forall env : ProcessEnv,
    (forall ai : GoogleGenAI,
        Part001.load env = Returns ai
        <-> GeminiService.getAiClient env None = Returns ai)
    /\ (Part001.load env = Throws (Error "API_KEY environment variable not set.")
        <-> truthy_opt (API_KEY env) = false).
Proof.
  intros [[[|c k]|]]; unfold Part001.load, GeminiService.getAiClient; simpl;
    (split; [intros ai|]); split; intros H;
    try discriminate; try reflexivity; try exact H;
    try (injection H as <-; reflexivity).
Qed.

(** X13. In a module of the earlier revision that loaded, no credential
    check stands between a call and the backend: [generateImage] contacts
    the backend exactly when the model tag is the text-to-image one, or is
    the edit one with an image input or a prompt that does not trim to the
    empty string. *)
Theorem X13_part001_backend_contacted_iff :
  forall (env : ProcessEnv) (defaultAi : GoogleGenAI)
         (World : Type) (sdk : Backend World)
         (prompt aspectRatio model : string) (image : option ImageInput.t)
         (apiKey : option string) (w : World),
    Part001.load env = Returns defaultAi ->
    (backendCalls
       (events (Part001.generateImage sdk defaultAi prompt aspectRatio
                  model image apiKey w)) <> []
     <-> model = "imagen-4.0-generate-001"
         \/ (model = "gemini-2.5-flash-image-preview"
             /\ (image <> None \/ trim prompt <> ""))).
Proof.
  intros env defaultAi World sdk prompt aspectRatio model image apiKey w Hload.
  rewrite (part001_generateImage_eq env defaultAi Hload).
  rewrite generateImage_backendCalls.
  pose proof (getAiClient_agree env defaultAi apiKey Hload) as Hresolved.
  destruct (tryBlock_case World sdk env prompt aspectRatio model image apiKey w)
    as [e Hai Htried|ai outcome w' Hai Hmodel Hcall Htried
       |ai Hai Hmodel Hnil Htried|ai outcome w' Hai Hmodel Hcons Hcall Htried
       |ai Hai Ha Hb Htried];
    rewrite Htried; simpl; split.
  - congruence.
  - congruence.
  - intros _. left. exact Hmodel.
  - discriminate.
  - intros H; exfalso; apply H; reflexivity.
  - intros [H|[_ H]].
    + subst model. discriminate.
    + apply partsAtLine70_nil_iff in Hnil. destruct Hnil as [Hi Hp].
      destruct H; contradiction.
  - intros _. right. split; [exact Hmodel|].
    destruct image as [img|]; [left; discriminate|right].
    intros Hp. apply Hcons. apply partsAtLine70_nil_iff. auto.
  - discriminate.
  - intros H; exfalso; apply H; reflexivity.
  - intros [H|[H _]]; contradiction.
Qed.

(** The witness of X13: a text-to-image call with an empty prompt and no
    override reaches the backend through the default client. *)
Lemma X13_witness :
  Part001.load Stub.envKey = Returns {| SDK.apiKey := "env-key" |}
  /\ (backendCalls
        (events (Part001.generateImage Stub.oneImage {| SDK.apiKey := "env-key" |}
                   "" "1:1" "imagen-4.0-generate-001" None None 0)) <> []
      <-> "imagen-4.0-generate-001" = "imagen-4.0-generate-001"
          \/ ("imagen-4.0-generate-001" = "gemini-2.5-flash-image-preview"
              /\ (@None ImageInput.t <> None \/ trim "" <> ""))).
Proof.
  split; [reflexivity|].
  apply (X13_part001_backend_contacted_iff Stub.envKey {| SDK.apiKey := "env-key" |}
           nat Stub.oneImage "" "1:1" "imagen-4.0-generate-001" None None 0).
  reflexivity.
Defined.

(** X14. The earlier revision has the same error vocabulary: its
    [generateImage] returns a payload or rejects with [error_quota],
    [error_api_key] or [error_generic], whatever client it runs with. *)
Theorem X14_part001_returns_or_rejects_with_one_of_three_codes :
  forall (World : Type) (sdk : Backend World) (defaultAi : GoogleGenAI)
         (prompt aspectRatio model : string) (image : option ImageInput.t)
         (apiKey : option string) (w : World),
    (exists payload,
        completion (Part001.generateImage sdk defaultAi prompt aspectRatio
                      model image apiKey w) = Returns payload)
    \/ completion (Part001.generateImage sdk defaultAi prompt aspectRatio
                     model image apiKey w) = Throws (Error "error_quota")
    \/ completion (Part001.generateImage sdk defaultAi prompt aspectRatio
                     model image apiKey w) = Throws (Error "error_api_key")
    \/ completion (Part001.generateImage sdk defaultAi prompt aspectRatio
                     model image apiKey w) = Throws (Error "error_generic").
Proof.
  intros World sdk defaultAi prompt aspectRatio model image apiKey w.
  unfold Part001.generateImage.
  destruct (completion
              (Part001.tryBlock sdk (Part001.getAiClient defaultAi apiKey)
                 prompt aspectRatio model image w)) as [payload|e] eqn:Htry.
  - left. exists payload. rewrite (try_catch_returns _ _ _ Htry). exact Htry.
  - right. rewrite (try_catch_throws _ _ _ Htry). cbn [completion].
    exact (catchBlock_codes e _).
Qed.

(** ** The string methods, characterised

    What the hypotheses on [includes] and [trim] in the statements above
    mean, in terms of the characters of the string. *)

Lemma startsWith_iff (search s : string) :
  startsWith s search = true <-> exists rest, s = (search ++ rest)%string.
Proof.
  revert s. induction search as [|a search' IH]; intros s; simpl.
  - split; [intros _; exists s; reflexivity|intros _; destruct s; reflexivity].
  - destruct s as [|b s']; simpl.
    + split; [discriminate|intros [rest H]; discriminate].
    + rewrite Bool.andb_true_iff, Ascii.eqb_eq, IH. split.
      * intros [-> [rest ->]]. exists rest. reflexivity.
      * intros [rest [= -> ->]]. split; [reflexivity|exists rest; reflexivity].
Qed.

(** [s.includes(search)] holds exactly when [search] occurs in [s]. *)
Lemma includes_iff (s search : string) :
  includes s search = true
  <-> exists before rest, s = (before ++ search ++ rest)%string.
Proof.
  induction s as [|c s' IH]; cbn [includes];
    rewrite Bool.orb_true_iff, startsWith_iff.
  - split.
    + intros [[rest H]|H]; [|discriminate]. exists "", rest. exact H.
    + intros [[|b before] [rest H]]; simpl in H; [|discriminate].
      left. exists rest. exact H.
  - rewrite IH. split.
    + intros [[rest H]|[before [rest H]]].
      * exists "", rest. exact H.
      * exists (String c before), rest. simpl. rewrite H. reflexivity.
    + intros [[|b before] [rest H]]; simpl in H.
      * left. exists rest. exact H.
      * right. injection H as -> ->. exists before, rest. reflexivity.
Qed.

Lemma trimStart_empty_iff (s : string) :
  trimStart s = ""
  <-> Forall (fun c => isWhiteSpace c = true) (list_ascii_of_string s).
Proof.
  induction s as [|c s' IH]; simpl.
  - split; auto.
  - destruct (isWhiteSpace c) eqn:Hc.
    + rewrite IH. split; [intros H; constructor; assumption|].
      intros H. inversion H; assumption.
    + split; [discriminate|]. intros H. inversion H; congruence.
Qed.

Lemma trimStart_head (s : string) (c : ascii) (rest : string) :
  trimStart s = String c rest -> isWhiteSpace c = false.
Proof.
  induction s as [|b s' IH]; simpl; [discriminate|].
  destruct (isWhiteSpace b) eqn:Hb; [exact IH|]. intros [= <- _]. exact Hb.
Qed.

(** [s.trim()] is the empty string exactly when every character of [s] is
    white space. *)
Lemma trim_empty_iff (s : string) :
  trim s = ""
  <-> Forall (fun c => isWhiteSpace c = true) (list_ascii_of_string s).
Proof.
  rewrite <- trimStart_empty_iff. unfold trim.
  destruct (trimStart s) as [|c rest] eqn:Hstart; [tauto|].
  pose proof (trimStart_head s c rest Hstart) as Hc.
  simpl. destruct (trimEnd rest); rewrite ?Hc; split; discriminate.
Qed.
